(** * Box Skills kit (FilesReader / SkillsWriter): a shallow embedding

    The development follows the JavaScript source of the skills kit
    (constants, [getFileFormat], [getFileType], [FilesReader],
    [pollRepresentationInfo], [getBasicFormatFileURL], [validateEnum],
    [validateUsage], [processDataList], [createMetadataCard],
    [createFacesCard], [saveErrorCard], [saveDataCards]) and states the
    properties of the specification over it.

    Modelling conventions.
    - A JavaScript string is a Rocq [string]; each character is read as one
      code unit below 256 (the Latin-1 range), which fixes what [trim] and
      [toLowerCase] do on every character.
    - A JavaScript value that the code inspects dynamically (an optional
      argument, a field compared with an enumeration) is a [JSVal].
    - A promise is modelled by its settlement ([Resolved], [Rejected] or
      still [Waiting]) together with the trace of effects performed.
    - Objects that are mutated after being shared live in an explicit store. *)

From Stdlib Require Import ZArith QArith Lia List Ascii String Bool.
From Stdlib.Strings Require Byte.
From stdpp Require Import base option list strings pretty gmap.

Local Open Scope string_scope.
Local Open Scope Z_scope.

(* ===================================================================== *)
(** ** JavaScript primitives used by the kit *)
(* ===================================================================== *)

Module JS.

(** Dynamically typed values, as far as the kit looks at them. *)
Inductive JSVal : Type :=
| JUndefined
| JNull
| JBool (b : bool)
| JNum (q : Q)
| JNaN
| JInfinity (negative : bool)
| JStr (s : string).

(** Errors that can be thrown: a built-in [TypeError], or [new Error(msg)]. *)
Inductive JSError : Type :=
| TypeError (msg : string)
| Error (msg : string).

(** The result of a synchronous call that may throw. *)
Inductive Completion (A : Type) : Type :=
| Normal (a : A)
| Throw (e : JSError).
Arguments Normal {A} a.
Arguments Throw {A} e.

Definition cbind {A B} (c : Completion A) (k : A -> Completion B) : Completion B :=
  match c with
  | Normal a => k a
  | Throw e => Throw e
  end.

Notation "x <- c ;; k" := (cbind c (fun x => k))
  (at level 100, c at next level, right associativity).

(** The settlement of a promise.  [Waiting] is a promise none of whose
    continuations has run yet because the answer it awaits never came. *)
Inductive Settled (A : Type) : Type :=
| Resolved (a : A)
| Rejected (e : JSError)
| Waiting.
Arguments Resolved {A} a.
Arguments Rejected {A} e.
Arguments Waiting {A}.

(** [ToBoolean] *)
Definition truthy (v : JSVal) : bool :=
  match v with
  | JUndefined | JNull | JNaN => false
  | JBool b => b
  | JNum q => negb (Qeq_bool q 0)
  | JInfinity _ => true
  | JStr s => negb (String.eqb s "")
  end.

Definition truthy_str (s : string) : bool := negb (String.eqb s "").

(** [===] *)
Definition strict_eq (a b : JSVal) : bool :=
  match a, b with
  | JUndefined, JUndefined => true
  | JNull, JNull => true
  | JBool x, JBool y => Bool.eqb x y
  | JNum x, JNum y => Qeq_bool x y
  | JInfinity x, JInfinity y => Bool.eqb x y
  | JStr x, JStr y => String.eqb x y
  | _, _ => false
  end.

(** [Array.prototype.includes] (SameValueZero, so [NaN] is found). *)
Definition same_value_zero (a b : JSVal) : bool :=
  match a, b with
  | JNaN, JNaN => true
  | _, _ => strict_eq a b
  end.

Definition includes (l : list JSVal) (v : JSVal) : bool :=
  existsb (same_value_zero v) l.

(** [Array.prototype.includes] on an array of strings searched for a string. *)
Definition includes_str (l : list string) (s : string) : bool :=
  existsb (String.eqb s) l.

(** [Number.isInteger] *)
Definition Number_isInteger (v : JSVal) : bool :=
  match v with
  | JNum q => Z.eqb (Z.modulo (Qnum q) (Zpos (Qden q))) 0
  | _ => false
  end.

(** Stringification inside a template literal, for an optional string. *)
Definition template_str (o : option string) : string :=
  match o with
  | Some s => s
  | None => "undefined"
  end.

(** White space and line terminators stripped by [String.prototype.trim],
    among the code units below 256: TAB, LF, VT, FF, CR, SP and NBSP. *)
Definition is_space (c : ascii) : bool :=
  let n := N_of_ascii c in
  (N.eqb n 9 || N.eqb n 10 || N.eqb n 11 || N.eqb n 12 || N.eqb n 13
   || N.eqb n 32 || N.eqb n 160)%bool.

Fixpoint trimLeft (s : string) : string :=
  match s with
  | EmptyString => EmptyString
  | String c r => if is_space c then trimLeft r else s
  end.

Fixpoint trimRight (s : string) : string :=
  match s with
  | EmptyString => EmptyString
  | String c r =>
      match trimRight r with
      | EmptyString => if is_space c then EmptyString else String c EmptyString
      | r' => String c r'
      end
  end.

(** [String.prototype.trim] *)
Definition trim (s : string) : string := trimRight (trimLeft s).

(** [String.prototype.toLowerCase] on one code unit below 256: the letters
    A-Z and the Latin-1 capitals U+00C0..U+00DE (U+00D7, the multiplication
    sign, apart) move up by 32. *)
Definition lower_char (c : ascii) : ascii :=
  let n := N_of_ascii c in
  if ((N.leb 65 n && N.leb n 90)
      || (N.leb 192 n && N.leb n 222 && negb (N.eqb n 215)))%bool
  then ascii_of_N (n + 32)
  else c.

Fixpoint toLowerCase (s : string) : string :=
  match s with
  | EmptyString => EmptyString
  | String c r => String (lower_char c) (toLowerCase r)
  end.

(** [String.prototype.replace] with a string pattern and a replacement that
    holds no [$] pattern: only the first occurrence is replaced. *)
Fixpoint replace (pat rep s : string) : string :=
  if String.prefix pat s
  then String.append rep
         (String.substring (String.length pat)
            (String.length s - String.length pat) s)
  else match s with
       | EmptyString => EmptyString
       | String c r => String c (replace pat rep r)
       end.

(** lodash [trimStart(string, chars)]: drops the leading characters that
    occur in [chars]. *)
Fixpoint occurs (c : ascii) (chars : string) : bool :=
  match chars with
  | EmptyString => false
  | String d r => (Ascii.eqb c d || occurs c r)%bool
  end.

Fixpoint trimStart (s chars : string) : string :=
  match s with
  | EmptyString => EmptyString
  | String c r => if occurs c chars then trimStart r chars else s
  end.

End JS.
Import JS.

(* ===================================================================== *)
(** ** Node's [path.extname] (POSIX flavour) *)
(* ===================================================================== *)

Module Path.

(** The variables of the scanning loop of [extname]. *)
Record Scan : Type := mkScan {
  startDot : Z;
  startPart : Z;
  endIdx : Z;
  matchedSlash : bool;
  preDotState : Z
}.

Definition scan0 : Scan :=
  {| startDot := -1; startPart := 0; endIdx := -1;
     matchedSlash := true; preDotState := 0 |}.

(** One pass of [for (let i = path.length - 1; i >= 0; --i)]: [chars] holds
    the characters at indices [i], [i-1], ..., [0]. *)
Fixpoint scan (chars : list ascii) (i : Z) (st : Scan) : Scan :=
  match chars with
  | [] => st
  | c :: rest =>
      if Ascii.eqb c "/"%char then
        if negb (matchedSlash st)
        then (* break *)
          {| startDot := startDot st; startPart := i + 1; endIdx := endIdx st;
             matchedSlash := matchedSlash st; preDotState := preDotState st |}
        else (* continue *) scan rest (i - 1) st
      else
        let st1 :=
          if endIdx st =? -1
          then {| startDot := startDot st; startPart := startPart st;
                  endIdx := i + 1; matchedSlash := false;
                  preDotState := preDotState st |}
          else st in
        let st2 :=
          if Ascii.eqb c "."%char then
            if startDot st1 =? -1
            then {| startDot := i; startPart := startPart st1;
                    endIdx := endIdx st1; matchedSlash := matchedSlash st1;
                    preDotState := preDotState st1 |}
            else if negb (preDotState st1 =? 1)
            then {| startDot := startDot st1; startPart := startPart st1;
                    endIdx := endIdx st1; matchedSlash := matchedSlash st1;
                    preDotState := 1 |}
            else st1
          else if negb (startDot st1 =? -1)
          then {| startDot := startDot st1; startPart := startPart st1;
                  endIdx := endIdx st1; matchedSlash := matchedSlash st1;
                  preDotState := -1 |}
          else st1 in
        scan rest (i - 1) st2
  end.

(** [path.slice(a, b)] for [0 <= a <= b]. *)
Definition slice (s : string) (a b : Z) : string :=
  String.substring (Z.to_nat a) (Z.to_nat (b - a)) s.

Definition extname (path : string) : string :=
  let st := scan (rev (list_ascii_of_string path))
                 (Z.of_nat (String.length path) - 1) scan0 in
  if ((startDot st =? -1)
      || (endIdx st =? -1)
      || (preDotState st =? 0)
      || ((preDotState st =? 1)
          && (startDot st =? endIdx st - 1)
          && (startDot st =? startPart st + 1)))%bool
  then ""
  else slice path (startDot st) (endIdx st).

End Path.

(* ===================================================================== *)
(** ** The skills kit *)
(* ===================================================================== *)

Module Kit.

(** *** Constants *)

Definition BASE_PATH : string := "/skill_invocations".
Definition SKILLS_SERVICE_TYPE : string := "service".
Definition SKILLS_METADATA_CARD_TYPE : string := "skill_card".
Definition SKILLS_METADATA_INVOCATION_TYPE : string := "skill_invocation".
Definition BOX_API_ENDPOINT : string := "https://api.box.com/2.0".
Definition MB_INTO_BYTES : Z := 1048576.

Record FileTypeInfo : Type := mkFileTypeInfo {
  name : string;
  representationType : string
}.

Module FileType.
Definition AUDIO := {| name := "AUDIO"; representationType := "[mp3]" |}.
Definition VIDEO := {| name := "VIDEO"; representationType := "[mp4]" |}.
Definition IMAGE :=
  {| name := "IMAGE"; representationType := "[jpg?dimensions=1024x1024]" |}.
Definition DOCUMENT :=
  {| name := "DOCUMENT"; representationType := "[extracted_text]" |}.

(** [FileType[key]] *)
Definition get (key : string) : option FileTypeInfo :=
  if String.eqb key "AUDIO" then Some AUDIO
  else if String.eqb key "VIDEO" then Some VIDEO
  else if String.eqb key "IMAGE" then Some IMAGE
  else if String.eqb key "DOCUMENT" then Some DOCUMENT
  else None.
End FileType.

Definition boxVideoFormats : list string :=
  ["3g2"; "3gp"; "avi"; "flv"; "m2v"; "m2ts"; "m4v"; "mkv"; "mov"; "mp4";
   "mpeg"; "mpg"; "ogg"; "mts"; "qt"; "ts"; "wmv"].

Definition boxAudioFormats : list string :=
  ["aac"; "aif"; "aifc"; "aiff"; "amr"; "au"; "flac"; "m4a"; "mp3"; "ra";
   "wav"; "wma"].

Definition boxImageFormats : list string :=
  ["ai"; "bmp"; "gif"; "eps"; "heic"; "jpeg"; "jpg"; "png"; "ps"; "psd";
   "svg"; "tif"; "tiff"; "dcm"; "dicm"; "dicom"; "svs"; "tga"].

Definition getFileFormat (fileName : string) : string :=
  let fileExtension := toLowerCase (Path.extname fileName) in
  trimStart fileExtension ".".

Definition getFileType (fileFormat : string) : string :=
  if includes_str boxAudioFormats fileFormat then name FileType.AUDIO
  else if includes_str boxImageFormats fileFormat then name FileType.IMAGE
  else if includes_str boxVideoFormats fileFormat then name FileType.VIDEO
  else name FileType.DOCUMENT.

(** *** Public enumeration of error codes *)

Module SkillsErrorEnum.
Definition FILE_PROCESSING_ERROR := "skills_file_processing_error".
Definition INVALID_FILE_SIZE := "skills_invalid_file_size_error".
Definition INVALID_FILE_FORMAT := "skills_invalid_file_format_error".
Definition INVALID_EVENT := "skills_invalid_event_error".
Definition NO_INFO_FOUND := "skills_no_info_found".
Definition INVOCATIONS_ERROR := "skills_invocations_error".
Definition EXTERNAL_AUTH_ERROR := "skills_external_auth_error".
Definition BILLING_ERROR := "skills_billing_error".
Definition UNKNOWN := "skills_unknown_error".

(** [Object.values(SkillsErrorEnum)] *)
Definition values : list JSVal :=
  map JStr [FILE_PROCESSING_ERROR; INVALID_FILE_SIZE; INVALID_FILE_FORMAT;
            INVALID_EVENT; NO_INFO_FOUND; INVOCATIONS_ERROR;
            EXTERNAL_AUTH_ERROR; BILLING_ERROR; UNKNOWN].
End SkillsErrorEnum.

(** *** The inbound event and [FilesReader] *)

(** [{id, skill:{id}, source:{id,name,size},
      token:{read:{access_token}, write:{access_token}}}];
    [None] is an absent ([undefined] or [null]) field. *)
Record SkillRef : Type := mkSkillRef { skill_id : option string }.
Record Source : Type := mkSource {
  source_id : option string;
  source_name : option string;
  source_size : option Z
}.
Record Token : Type := mkToken { access_token : option string }.
Record Tokens : Type := mkTokens {
  token_read : option Token;
  token_write : option Token
}.
Record EventBody : Type := mkEventBody {
  event_id : option string;
  event_skill : option SkillRef;
  event_source : option Source;
  event_token : option Tokens
}.

(** [BoxSDK.getBasicClient(token)]: the SDK wraps the token in a session
    and a client without looking at it. *)
Record BoxClient : Type := mkBoxClient { client_token : option string }.
Definition getBasicClient (accessToken : option string) : BoxClient :=
  {| client_token := accessToken |}.

(** Reading property [prop] of [o]: a [TypeError] when [o] is absent. *)
Definition read_of {A : Type} (o : option A) (prop : string) : Completion A :=
  match o with
  | Some a => Normal a
  | None =>
      Throw (TypeError
        ("Cannot read properties of undefined (reading '" +:+ prop +:+ "')"))
  end.

(** [getFileFormat(this.fileName)] where the name may be missing: Node's
    [path.extname] throws on an argument that is not a string. *)
Definition getFileFormat_checked (fileName : option string)
  : Completion string :=
  match fileName with
  | Some n => Normal (getFileFormat n)
  | None =>
      Throw (TypeError
        "ERR_INVALID_ARG_TYPE: the path argument must be of type string")
  end.

Record FilesReaderObj : Type := mkFilesReader {
  requestId : option string;
  skillId : string;
  fileId : option string;
  fileName : option string;
  fileSize : option Z;
  fileFormat : string;
  fileType : string;
  fileReadToken : option string;
  fileWriteToken : option string;
  fileReadClient : BoxClient;
  fileDownloadURL : string
}.

(** [new FilesReader(body)] for a [body] that is already an object. *)
Definition FilesReader (eventBody : EventBody) : Completion FilesReaderObj :=
  let requestId := event_id eventBody in
  skill <- read_of (event_skill eventBody) "id" ;;
  skillId <- read_of (skill_id skill) "toString" ;;
  source <- read_of (event_source eventBody) "id" ;;
  let fileId := source_id source in
  let fileName := source_name source in
  let fileSize := source_size source in
  fileFormat <- getFileFormat_checked fileName ;;
  let fileType := getFileType fileFormat in
  token <- read_of (event_token eventBody) "read" ;;
  rd <- read_of (token_read token) "access_token" ;;
  let fileReadToken := access_token rd in
  wr <- read_of (token_write token) "access_token" ;;
  let fileWriteToken := access_token wr in
  Normal
    {| requestId := requestId;
       skillId := skillId;
       fileId := fileId;
       fileName := fileName;
       fileSize := fileSize;
       fileFormat := fileFormat;
       fileType := fileType;
       fileReadToken := fileReadToken;
       fileWriteToken := fileWriteToken;
       fileReadClient := getBasicClient fileReadToken;
       fileDownloadURL :=
         BOX_API_ENDPOINT +:+ "/files/" +:+ template_str fileId
         +:+ "/content?access_token=" +:+ template_str fileReadToken |}.

(** *** Validation helpers *)

(** [validateFormat(allowedFileFormatsList)] *)
Definition validateFormat (this : FilesReaderObj)
    (allowedFileFormatsList : list string) : Completion bool :=
  if includes_str allowedFileFormatsList (fileFormat this)
  then Normal true
  else Throw (Error SkillsErrorEnum.INVALID_FILE_FORMAT).

(** [validateSize(allowedMegabytesNum)].  The quotient by 1048576, a power
    of two, is exact for every size a file can have, so it is taken in the
    rationals; a missing size gives [NaN], which compares false. *)
Definition validateSize (this : FilesReaderObj) (allowedMegabytesNum : Q)
  : Completion bool :=
  match fileSize this with
  | Some size =>
      let fileSizeMB := (inject_Z size / inject_Z MB_INTO_BYTES)%Q in
      if Qle_bool fileSizeMB allowedMegabytesNum
      then Normal true
      else Throw (Error SkillsErrorEnum.INVALID_FILE_SIZE)
  | None => Throw (Error SkillsErrorEnum.INVALID_FILE_SIZE)
  end.

(** *** Representation polling *)

(** A representation entry:
    [{status:{state}, content:{url_template}, info:{url}}]. *)
Record RepInfo : Type := mkRepInfo {
  rep_state : string;
  rep_url_template : string;
  rep_info_url : string
}.

Record Response : Type := mkResponse {
  statusCode : Z;
  body : RepInfo
}.

(** What the polling code does to the outside, in order. *)
Inductive Effect : Type :=
| GetRepresentationInfo (fileId : option string) (representationType : string)
| Get (url : string)
| Delay (ms : Z)
| ConsoleError (msg : string).

(** What the identifier [Promise] denotes where [pollRepresentationInfo]
    calls [Promise.delay]: the built-in constructor of the runtime, which
    has no static [delay], or bluebird's, which has one. *)
Inductive PromiseBinding : Type :=
| BuiltinPromise
| BluebirdPromise.

(** [Promise.delay] under a binding: absent, or the timer effect. *)
Definition Promise_delay (P : PromiseBinding) : option (Z -> Effect) :=
  match P with
  | BuiltinPromise => None
  | BluebirdPromise => Some Delay
  end.

(** The module requires [box-node-sdk], [stream], [url-path],
    [url-template], [path], [jimp] and two lodash functions; it neither
    requires nor declares a [Promise], so the identifier is the global one
    of the Node runtime. *)
Definition Promise : PromiseBinding := BuiltinPromise.

(** The poller under a given binding of [Promise].  [responses] are the
    answers of the successive [client.get(infoURL)] calls; when they run
    out the last request is still unanswered. *)
Fixpoint pollRepresentationInfoWith (P : PromiseBinding) (infoURL : string)
    (responses : list Response) : list Effect * Settled RepInfo :=
  match responses with
  | [] => ([Get infoURL], Waiting)
  | response :: rest =>
      let unexpected :=
        if negb (statusCode response =? 200)
        then [ConsoleError "Unexpected response [object Object]"]
        else [] in
      let info := body response in
      let state := rep_state info in
      if (String.eqb state "success" || String.eqb state "viewable"
          || String.eqb state "error")%bool
      then (Get infoURL :: unexpected, Resolved info)
      else if (String.eqb state "none" || String.eqb state "pending")%bool
      then
        match Promise_delay P with
        | Some delay =>
            let '(trace, result) :=
              pollRepresentationInfoWith P infoURL rest in
            (Get infoURL :: unexpected ++ delay 1000 :: trace, result)
        | None =>
            (Get infoURL :: unexpected,
             Rejected (TypeError "Promise.delay is not a function"))
        end
      else
        (Get infoURL :: unexpected
           ++ [ConsoleError ("Unknown representation status: " +:+ state)],
         Rejected (Error SkillsErrorEnum.FILE_PROCESSING_ERROR))
  end.

(** [pollRepresentationInfo] as the module has it. *)
Definition pollRepresentationInfo (infoURL : string)
    (responses : list Response) : list Effect * Settled RepInfo :=
  pollRepresentationInfoWith Promise infoURL responses.

Section BasicFormat.

(** [urlTemplate.parse(t).expand({ asset_path: p })] of the url-template
    package. *)
Variable urlTemplate_expand : string -> string -> string.

(** The second [.then] of [getBasicFormatFileURL]. *)
Definition finishURL (this : FilesReaderObj) (assetURLTemplate : string)
  : string :=
  urlTemplate_expand assetURLTemplate "" +:+ "?access_token="
  +:+ template_str (fileReadToken this).

(** [getBasicFormatFileURL] under a binding of [Promise]: [entries] is
    [reps.entries] of the answer to [getRepresentationInfo], [responses]
    are the answers to the poller's requests. *)
Definition getBasicFormatFileURLWith (P : PromiseBinding)
    (this : FilesReaderObj) (entries : list RepInfo)
    (responses : list Response) : list Effect * Settled string :=
  match FileType.get (fileType this) with
  | None =>
      ([], Rejected (TypeError
         "Cannot read properties of undefined (reading 'representationType')"))
  | Some ft =>
      let first := GetRepresentationInfo (fileId this) (representationType ft) in
      match last entries with
      | None =>
          ([first;
            ConsoleError "Could not get information for requested representation"],
           Rejected (Error SkillsErrorEnum.FILE_PROCESSING_ERROR))
      | Some repInfo =>
          let state := rep_state repInfo in
          if (String.eqb state "success" || String.eqb state "viewable")%bool
          then ([first], Resolved (finishURL this (rep_url_template repInfo)))
          else if String.eqb state "error"
          then ([first; ConsoleError "Representation had error status"],
                Rejected (Error SkillsErrorEnum.FILE_PROCESSING_ERROR))
          else if (String.eqb state "none" || String.eqb state "pending")%bool
          then
            match pollRepresentationInfoWith P (rep_info_url repInfo) responses with
            | (trace, Resolved info) =>
                if String.eqb (rep_state info) "error"
                then (first :: trace
                        ++ [ConsoleError "Representation had error status"],
                      Rejected (Error SkillsErrorEnum.FILE_PROCESSING_ERROR))
                else (first :: trace,
                      Resolved (finishURL this (rep_url_template info)))
            | (trace, Rejected e) => (first :: trace, Rejected e)
            | (trace, Waiting) => (first :: trace, Waiting)
            end
          else
            ([first;
              ConsoleError ("Unknown representation status: " +:+ state)],
             Rejected (Error SkillsErrorEnum.FILE_PROCESSING_ERROR))
      end
  end.

Definition getBasicFormatFileURL (this : FilesReaderObj)
    (entries : list RepInfo) (responses : list Response)
  : list Effect * Settled string :=
  getBasicFormatFileURLWith Promise this entries responses.

End BasicFormat.

(** *** [SkillsWriter]: private enumerations *)

Module cardType.
Definition TRANSCRIPT := "transcript".
Definition TOPIC := "keyword".
Definition FACES := "timeline".
Definition STATUS := "status".
Definition ERROR := "error".
End cardType.

Module cardTitle.
Definition TRANSCRIPT := "Transcript".
Definition TOPIC := "Topics".
Definition FACES := "Faces".
Definition STATUS := "Status".
Definition ERROR := "Error".
End cardTitle.

Module usageUnit.
Definition FILES := "files".
Definition SECONDS := "seconds".
Definition PAGES := "pages".
Definition WORDS := "words".
Definition values : list JSVal := map JStr [FILES; SECONDS; PAGES; WORDS].
End usageUnit.

Module skillInvocationStatus.
Definition INVOKED := "invoked".
Definition PROCESSING := "processing".
Definition PENDING := "skills_pending_status".
Definition TRANSIENT_FAILURE := "transient_failure".
Definition PERMANENT_FAILURE := "permanent_failure".
Definition SUCCESS := "success".
Definition values : list JSVal :=
  map JStr [INVOKED; PROCESSING; PENDING; TRANSIENT_FAILURE;
            PERMANENT_FAILURE; SUCCESS].
End skillInvocationStatus.

(** *** [SkillsWriter]: private functions *)

(** [validateEnum(inputValue, enumName)], the enumeration given by its
    [Object.values]. *)
Definition validateEnum (inputValue : JSVal) (enumValues : list JSVal) : bool :=
  includes enumValues inputValue.

(** A usage object [{ unit, value }]. *)
Record Usage : Type := mkUsage {
  unit : JSVal;
  value : JSVal
}.

(** [validateUsage(usage)]; [None] is an absent (falsy) argument. *)
Definition validateUsage (usage : option Usage) : bool :=
  match usage with
  | None => false
  | Some u => (validateEnum (unit u) usageUnit.values
               && Number_isInteger (value u))%bool
  end.

(** One item of a data list: [{ text, image_url, type, appears }].
    [appears] is [None] when the field is missing. *)
Record Entry : Type := mkEntry {
  text : option string;
  image_url : JSVal;
  entry_type : option string;
  appears : option (list (Q * Q))
}.

(** The predicate of [.filter]: [data.text && data.text.trim()]. *)
Definition has_text (data : Entry) : bool :=
  match text data with
  | None => false
  | Some t => (truthy_str t && truthy_str (trim t))%bool
  end.

(** [typeof v === 'string'] *)
Definition is_string (v : JSVal) : bool :=
  match v with
  | JStr _ => true
  | _ => false
  end.

(** A duration argument: a number, or absent. *)
Definition truthy_num (d : option Q) : bool :=
  match d with
  | Some q => negb (Qeq_bool q 0)
  | None => false
  end.

(** The callback of [.map]; the warning it may print is not part of the
    result, reading [.length] of a missing [appears] throws. *)
Definition processData (duration : option Q) (data : Entry) : Completion Entry :=
  _ <- (if truthy_num duration
        then match appears data with
             | Some _ => Normal tt
             | None =>
                 Throw (TypeError
                   "Cannot read properties of undefined (reading 'length')")
             end
        else Normal tt) ;;
  t <- read_of (text data) "trim" ;;
  Normal
    {| text := Some (trim t);
       image_url := image_url data;
       entry_type := Some (if is_string (image_url data) then "image" else "text");
       appears := appears data |}.

Fixpoint mapM {A B : Type} (f : A -> Completion B) (l : list A)
  : Completion (list B) :=
  match l with
  | [] => Normal []
  | a :: r => b <- f a ;; bs <- mapM f r ;; Normal (b :: bs)
  end.

Definition processDataList (dataList : list Entry) (duration : option Q)
  : Completion (list Entry) :=
  mapM (processData duration) (List.filter has_text dataList).

(** *** Metadata cards *)

Record StatusObj : Type := mkStatusObj {
  code : JSVal;
  message : option string
}.

(** The empty object [{}]. *)
Definition emptyStatus : StatusObj := {| code := JUndefined; message := None |}.

Record TitleObj : Type := mkTitleObj {
  title_code : string;
  title_message : string
}.

(** Arrays of entries are shared and updated in place, so a card holds a
    reference into the store of arrays. *)
Definition ArrayRef : Type := nat.

Record Card : Type := mkCard {
  created_at : string;
  card_type : string;
  skill : string * string;
  skill_card_type : string;
  skill_card_title : TitleObj;
  invocation : string * option string;
  status : StatusObj;
  entries : option ArrayRef;
  duration : option Q
}.

Record SkillsWriterObj : Type := mkSkillsWriter {
  w_requestId : option string;
  w_skillId : string;
  w_fileId : option string;
  fileWriteClient : BoxClient
}.

(** [new SkillsWriter(fileContext)], on the reader's fields that
    [getFileContext] copies. *)
Definition SkillsWriter (fileContext : FilesReaderObj) : SkillsWriterObj :=
  {| w_requestId := requestId fileContext;
     w_skillId := skillId fileContext;
     w_fileId := fileId fileContext;
     fileWriteClient := getBasicClient (fileWriteToken fileContext) |}.

(** The title code computed by [createMetadataCard]. *)
Definition titleCode (title : string) : string :=
  replace " " "_" ("skills_" +:+ toLowerCase title).

(** [createMetadataCard]; [now] is [new Date().toISOString()]. *)
Definition createMetadataCard (this : SkillsWriterObj) (now : string)
    (type title : string) (optionalStatus : option StatusObj)
    (optionalEntries : option ArrayRef) (optionalfileDuration : option Q)
  : Card :=
  {| created_at := now;
     card_type := SKILLS_METADATA_CARD_TYPE;
     skill := (SKILLS_SERVICE_TYPE, w_skillId this);
     skill_card_type := type;
     skill_card_title := {| title_code := titleCode title; title_message := title |};
     invocation := (SKILLS_METADATA_INVOCATION_TYPE, w_requestId this);
     status := default emptyStatus optionalStatus;
     entries := optionalEntries;
     duration := if truthy_num optionalfileDuration
                 then optionalfileDuration else None |}.

(** [optionalCardTitle || fallback] *)
Definition title_or (optionalCardTitle : option string) (fallback : string)
  : string :=
  match optionalCardTitle with
  | Some t => if truthy_str t then t else fallback
  | None => fallback
  end.

(** The store of entry arrays. *)
Definition alloc (heap : gmap ArrayRef (list Entry)) (a : list Entry)
  : ArrayRef * gmap ArrayRef (list Entry) :=
  let r := fresh (dom heap) in (r, <[r := a]> heap).

(** The entries a card shows, read through the store. *)
Definition card_entries (heap : gmap ArrayRef (list Entry)) (c : Card)
  : option (list Entry) :=
  match entries c with
  | Some r => heap !! r
  | None => None
  end.

Definition createTopicsCard (this : SkillsWriterObj) (now : string)
    (heap : gmap ArrayRef (list Entry)) (topicsDataList : list Entry)
    (optionalFileDuration : option Q) (optionalCardTitle : option string)
  : Completion (Card * gmap ArrayRef (list Entry)) :=
  processed <- processDataList topicsDataList None ;;
  let '(r, heap1) := alloc heap processed in
  Normal (createMetadataCard this now cardType.TOPIC
            (title_or optionalCardTitle cardTitle.TOPIC) None (Some r)
            optionalFileDuration, heap1).

Definition createTranscriptsCard (this : SkillsWriterObj) (now : string)
    (heap : gmap ArrayRef (list Entry)) (transcriptsDataList : list Entry)
    (optionalFileDuration : option Q) (optionalCardTitle : option string)
  : Completion (Card * gmap ArrayRef (list Entry)) :=
  processed <- processDataList transcriptsDataList None ;;
  let '(r, heap1) := alloc heap processed in
  Normal (createMetadataCard this now cardType.TRANSCRIPT
            (title_or optionalCardTitle cardTitle.TRANSCRIPT) None (Some r)
            optionalFileDuration, heap1).

Section Faces.

(** For a string source [src], the outcome of
    [jimp.read(src).then((image) => image.resize(45, 45).getBase64Async(jimp.MIME_PNG))]:
    the data URI of the thumbnail, or [None] when fetching, decoding or
    encoding fails. *)
Variable thumbnail : string -> option string.

(** [jimp.read] on any value: what is neither a string nor one of the
    objects jimp builds an image from matches no constructor, and the
    promise rejects. *)
Definition jimp_read_thumbnail (src : JSVal) : option string :=
  match src with
  | JStr u => thumbnail u
  | _ => None
  end.

(** One promise of [dataURIPromises], with its [.catch(() => undefined)]. *)
Definition dataURIPromise (src : JSVal) : JSVal :=
  match jimp_read_thumbnail src with
  | Some uri => JStr uri
  | None => JUndefined
  end.

(** The values handed to the callback of [forEach]: an entry itself, or
    an element [[key, value]] of [Object.entries]. *)
Inductive Item : Type :=
| ItemEntry (e : Entry)
| ItemPair (key : string) (value : Entry).

(** [Object.entries(array)]: the pairs of an index, as a string, and the
    element at that index. *)
Definition Object_entries (a : list Entry) : list Item :=
  imap (fun i e => ItemPair (pretty i) e) a.

(** [item.image_url]: an entry has the field, a two-element array has the
    properties [0], [1] and [length] only. *)
Definition read_image_url (item : Item) : JSVal :=
  match item with
  | ItemEntry e => image_url e
  | ItemPair _ _ => JUndefined
  end.

(** [a || b] *)
Definition js_or (a b : JSVal) : JSVal := if truthy a then a else b.

(** The body of the [for] loop at index [i]. *)
Definition assign_back (dataURIs : list JSVal) (a : list Entry) (i : nat)
  : list Entry :=
  match a !! i with
  | Some e =>
      <[i := {| text := text e;
                image_url := js_or (default JUndefined (dataURIs !! i)) (image_url e);
                entry_type := entry_type e;
                appears := appears e |}]> a
  | None => a
  end.

Definition createFacesCard (this : SkillsWriterObj) (now : string)
    (heap : gmap ArrayRef (list Entry)) (facesDataList : list Entry)
    (optionalFileDuration : option Q) (optionalCardTitle : option string)
  : Completion (Card * gmap ArrayRef (list Entry)) :=
  facesDataListProcessed <- processDataList facesDataList None ;;
  let '(r, heap1) := alloc heap facesDataListProcessed in
  let cards :=
    createMetadataCard this now cardType.FACES
      (title_or optionalCardTitle cardTitle.FACES) None (Some r)
      optionalFileDuration in
  let dataURIs :=
    map (fun faceData => dataURIPromise (read_image_url faceData))
        (Object_entries facesDataListProcessed) in
  let updated :=
    fold_left (assign_back dataURIs)
      (seq 0 (length facesDataListProcessed)) facesDataListProcessed in
  Normal (cards, <[r := updated]> heap1).

End Faces.

(** *** Saving cards *)

(** [urlPath(BASE_PATH, skillId)] of the SDK, kept as the call it is. *)
Record ApiPath : Type := urlPath { path_base : string; path_segment : string }.

Record FileRef : Type := mkFileRef {
  file_type : string;
  file_id : option string
}.

(** The body of the PUT: [{status, file, metadata: {cards}, usage}];
    [usage] is [None] for [null]. *)
Record Body : Type := mkBody {
  body_status : JSVal;
  body_file : FileRef;
  body_metadata_cards : list Card;
  body_usage : option Usage
}.

Record PutRequest : Type := mkPutRequest {
  put_client : BoxClient;
  put_path : ApiPath;
  put_body : Body;
  put_headers : list (string * string)
}.

Definition putData (client : BoxClient) (skillId : string) (body : Body)
  : PutRequest :=
  {| put_client := client;
     put_path := urlPath BASE_PATH skillId;
     put_body := body;
     put_headers := [("Cache-Control", "no-cache");
                     ("Content-Type", "application/json")] |}.

Definition DEFAULT_USAGE : Usage :=
  {| unit := JStr usageUnit.FILES; value := JNum 1 |}.

Definition saveDataCards (this : SkillsWriterObj)
    (listofDataCardJSONs : list Card) (optionalStatus : JSVal)
    (optionalUsage : option Usage) : PutRequest :=
  let status :=
    if validateEnum optionalStatus skillInvocationStatus.values
    then optionalStatus else JStr skillInvocationStatus.SUCCESS in
  let usage :=
    if strict_eq status (JStr skillInvocationStatus.SUCCESS)
    then Some (if validateUsage optionalUsage
               then default DEFAULT_USAGE optionalUsage
               else DEFAULT_USAGE)
    else None in
  putData (fileWriteClient this) (w_skillId this)
    {| body_status := status;
       body_file := {| file_type := "file"; file_id := w_fileId this |};
       body_metadata_cards := listofDataCardJSONs;
       body_usage := usage |}.

Definition saveProcessingCard (this : SkillsWriterObj) (now : string)
  : PutRequest :=
  let status :=
    {| code := JStr skillInvocationStatus.PENDING;
       message := Some "We're preparing to process your file. Please hold on!" |} in
  let statusCard :=
    createMetadataCard this now cardType.STATUS cardTitle.STATUS (Some status)
      None None in
  saveDataCards this [statusCard] (JStr skillInvocationStatus.PROCESSING) None.

(** [saveErrorCard]; the custom message is a string or absent. *)
Definition saveErrorCard (this : SkillsWriterObj) (now : string)
    (error : JSVal) (optionalCustomErrorMessage : option string)
    (optionalFailureType : JSVal) : PutRequest :=
  let failureType :=
    if strict_eq optionalFailureType (JStr skillInvocationStatus.TRANSIENT_FAILURE)
    then optionalFailureType
    else JStr skillInvocationStatus.PERMANENT_FAILURE in
  let errorCode :=
    if validateEnum error SkillsErrorEnum.values
    then error else JStr SkillsErrorEnum.UNKNOWN in
  let errorObj :=
    match optionalCustomErrorMessage with
    | Some m =>
        if truthy_str m
        then {| code := JStr "custom_error"; message := Some m |}
        else {| code := errorCode; message := None |}
    | None => {| code := errorCode; message := None |}
    end in
  let errorCard :=
    createMetadataCard this now cardType.STATUS cardTitle.ERROR (Some errorObj)
      None None in
  saveDataCards this [errorCard] failureType None.

(** *** Reading a stream into a string *)

(** What a readable stream emits to its listeners, in order. *)
Inductive StreamEvent : Type :=
| OnData (chunk : list Byte.byte)
| OnError (err : JSError)
| OnEnd.

Section ReadStream.

(** [buffer.toString(encoding)] of Node's [Buffer]. *)
Variable Buffer_toString : string -> list Byte.byte -> string.

(** [resolve] and [reject] settle a promise once; later calls do nothing. *)
Definition settle (state new : Settled string) : Settled string :=
  match state with
  | Waiting => new
  | _ => state
  end.

(** The three listeners at work on the events of the stream: [chunks] is
    the array the [data] listener pushes to. *)
Fixpoint listen (encoding : string) (events : list StreamEvent)
    (chunks : list (list Byte.byte)) (state : Settled string)
  : Settled string :=
  match events with
  | [] => state
  | OnData chunk :: rest => listen encoding rest (chunks ++ [chunk]) state
  | OnError err :: rest =>
      listen encoding rest chunks (settle state (Rejected err))
  | OnEnd :: rest =>
      listen encoding rest chunks
        (settle state (Resolved (Buffer_toString encoding (concat chunks))))
  end.

(** [readStreamToString(stream, encoding = 'base64')]: [stream] is [None]
    for a value that is falsy or no object, and otherwise the events the
    stream goes on to emit. *)
Definition readStreamToString (stream : option (list StreamEvent))
    (encoding : option string) : Completion (Settled string) :=
  match stream with
  | None => Throw (TypeError "Invalid Stream, must be a readable stream.")
  | Some events =>
      Normal (listen (default "base64" encoding) events [] Waiting)
  end.

End ReadStream.

End Kit.
Import Kit.

(* ===================================================================== *)
(** ** The entry point ([index.js]) *)
(* ===================================================================== *)

Module Index.

(** The metadata instance [getMetadata] resolves to, as far as the handler
    reads it. *)
Record Metadata : Type := mkMetadata { documentType : JSVal }.

(** How the outside answers the handler: what
    [Box.validateWebhookMessage] returns or throws, and what awaiting
    [getMetadata], [setMetadata] and the PUT of the error card gives (a
    value, or the error the rejected promise throws at the [await]). *)
Record World : Type := mkWorld {
  validateWebhookMessage : Completion bool;
  getMetadata : Completion Metadata;
  setMetadata : Completion Datatypes.unit;
  put : PutRequest -> Completion Datatypes.unit
}.

(** What the handler does to the outside, console output apart. *)
Inductive Action : Type :=
| CallGetMetadata (client : BoxClient) (fileId : option string)
    (scope template : string)
| CallSetMetadata (client : BoxClient) (fileId : option string)
    (scope template : string) (participantCount : Z)
| CallPut (request : PutRequest)
| Callback (statusCode : Z) (body : string).

Definition RETRY_BODY : string :=
  "Something went wrong. The process will retry via exponential backoff.".

(** [module.exports.handler]; [eventBody] is [event.body], an object or
    the JSON text of one.  The result is the trace of actions and how the
    [async] function ends: [Throw] is a rejected promise. *)
Definition handler (now : string) (world : World) (eventBody : EventBody)
  : list Action * Completion Datatypes.unit :=
  match FilesReader eventBody with
  | Throw e => ([], Throw e)
  | Normal filesReader =>
      let skillsWriter := SkillsWriter filesReader in
      match validateWebhookMessage world with
      | Normal true =>
          let get :=
            CallGetMetadata (fileWriteClient skillsWriter)
              (w_fileId skillsWriter) "enterprise" "eventSubmissionDocument" in
          match getMetadata world with
          | Normal metadata =>
              if strict_eq (documentType metadata) (JStr "Event Plan")
              then
                let set :=
                  CallSetMetadata (fileWriteClient skillsWriter)
                    (w_fileId skillsWriter) "enterprise" "eventDetails" 500 in
                match setMetadata world with
                | Normal _ =>
                    ([get; set;
                      Callback 200 "Box event was processed by skill"],
                     Normal tt)
                | Throw _ => ([get; set; Callback 400 RETRY_BODY], Normal tt)
                end
              else
                ([get; Callback 200 "Not a Event Submissions Document"],
                 Normal tt)
          | Throw _ => ([get; Callback 400 RETRY_BODY], Normal tt)
          end
      | Normal false => ([Callback 401 "Unauthorized"], Normal tt)
      | Throw _ =>
          let request :=
            saveErrorCard skillsWriter now (JStr SkillsErrorEnum.UNKNOWN)
              (Some "Something went wrong. It will retry again in a few minutes.")
              JUndefined in
          match put world request with
          | Normal _ => ([CallPut request; Callback 400 RETRY_BODY], Normal tt)
          | Throw e => ([CallPut request], Throw e)
          end
      end
  end.

End Index.
Import Index.

(* ===================================================================== *)
(** ** Vocabulary of the specification *)
(* ===================================================================== *)

Module Spec.

(** A text made of white space only (the empty text included). *)
Fixpoint whitespace_only (t : string) : Prop :=
  match t with
  | EmptyString => True
  | String c r => is_space c = true /\ whitespace_only r
  end.

Definition starts_nonspace (t : string) : Prop :=
  match t with
  | EmptyString => True
  | String c _ => is_space c = false
  end.

Fixpoint ends_nonspace (t : string) : Prop :=
  match t with
  | EmptyString => True
  | String c EmptyString => is_space c = false
  | String _ r => ends_nonspace r
  end.

(** [t'] is [t] without its leading and trailing white space. *)
Definition trimmed_of (t t' : string) : Prop :=
  exists l r,
    t = l +:+ t' +:+ r /\ whitespace_only l /\ whitespace_only r
    /\ starts_nonspace t' /\ ends_nonspace t'.

(** An entry that carries an image URL. *)
Definition carries_image_url (e : Entry) : Prop :=
  exists u, image_url e = JStr u.

(** An entry with no text, or with a blank one. *)
Definition blank (e : Entry) : Prop :=
  match text e with
  | None => True
  | Some t => whitespace_only t
  end.

(** [e'] is the normal form of the entry [e]: trimmed text and a type tag,
    the other fields as they were. *)
Definition normal_form (e e' : Entry) : Prop :=
  exists t t',
    text e = Some t /\ ~ whitespace_only t
    /\ text e' = Some t' /\ trimmed_of t t'
    /\ (carries_image_url e -> entry_type e' = Some "image")
    /\ (~ carries_image_url e -> entry_type e' = Some "text")
    /\ image_url e' = image_url e
    /\ appears e' = appears e.

(** [out] is [dataList] with the blank entries dropped and the others
    normalised, in order. *)
Inductive Normalised : list Entry -> list Entry -> Prop :=
| Normalised_nil : Normalised [] []
| Normalised_drop e l out :
    blank e -> Normalised l out -> Normalised (e :: l) out
| Normalised_keep e e' l out :
    normal_form e e' -> Normalised l out -> Normalised (e :: l) (e' :: out).

(** The invocation statuses as the specification lists them. *)
Definition spec_InvocationStatus : list string :=
  ["invoked"; "processing"; "pending"; "transient_failure";
   "permanent_failure"; "success"].

(** The fields of an event the specification calls required. *)
Definition the_skill_id (ev : EventBody) : option string :=
  match event_skill ev with Some s => skill_id s | None => None end.
Definition the_source_id (ev : EventBody) : option string :=
  match event_source ev with Some s => source_id s | None => None end.
Definition the_source_name (ev : EventBody) : option string :=
  match event_source ev with Some s => source_name s | None => None end.
Definition the_source_size (ev : EventBody) : option Z :=
  match event_source ev with Some s => source_size s | None => None end.
Definition the_read_token (ev : EventBody) : option string :=
  match event_token ev with
  | Some t => match token_read t with Some r => access_token r | None => None end
  | None => None
  end.
Definition the_write_token (ev : EventBody) : option string :=
  match event_token ev with
  | Some t => match token_write t with Some r => access_token r | None => None end
  | None => None
  end.

Definition required_field_absent (ev : EventBody) : Prop :=
  the_skill_id ev = None \/ the_source_id ev = None
  \/ the_source_name ev = None \/ the_source_size ev = None
  \/ the_read_token ev = None \/ the_write_token ev = None.

(** The objects and fields whose absence the constructor runs into: the
    skill id, the source name, and the [read] and [write] token objects. *)
Definition dereferenced_present (ev : EventBody) : Prop :=
  the_skill_id ev <> None /\ the_source_name ev <> None
  /\ (exists t r w, event_token ev = Some t /\ token_read t = Some r
                    /\ token_write t = Some w).

(** The states in which the poller goes on, stops, or gives up. *)
Definition in_progress (state : string) : Prop :=
  state = "none" \/ state = "pending".
Definition terminal (state : string) : Prop :=
  state = "success" \/ state = "viewable" \/ state = "error".

(** The log line printed for an answer whose status code is not 200. *)
Definition unexpected (response : Response) : list Effect :=
  if negb (statusCode response =? 200)
  then [ConsoleError "Unexpected response [object Object]"]
  else [].

(** The number of timers of [ms] milliseconds in a trace. *)
Definition delays (ms : Z) (trace : list Effect) : nat :=
  length (List.filter (fun e => match e with
                                | Delay d => d =? ms
                                | _ => false
                                end) trace).

(** The number of requests in a trace. *)
Definition requests (trace : list Effect) : nat :=
  length (List.filter (fun e => match e with
                                | Get _ => true
                                | _ => false
                                end) trace).

(** A text without a space. *)
Definition no_space (s : string) : Prop := occurs " " s = false.

(** A file extension: not empty, without a dot and without a slash. *)
Definition plain_extension (ext : string) : Prop :=
  ext <> "" /\ occurs "." ext = false /\ occurs "/" ext = false.

(** A path that ends in a character of a name, not in a slash. *)
Definition ends_in_name (base : string) : Prop :=
  exists b c, base = b +:+ String c "" /\ c <> "/"%char.

(** [heap'] holds every array of [heap] with the content it had. *)
Definition extends (heap heap' : gmap ArrayRef (list Entry)) : Prop :=
  forall r a, heap !! r = Some a -> heap' !! r = Some a.

(** An entry that [processDataList] has put out passes unchanged. *)
Definition settled_entry (e : Entry) : Prop :=
  has_text e = true /\ processData None e = Normal e.

(** The error of reading [.length] of a missing [appears]. *)
Definition missing_appears : JSError :=
  TypeError "Cannot read properties of undefined (reading 'length')".

(** The state of the scan of [path.extname] once it has seen the end of
    the name, at index [i0]. *)
Definition seen_end (i0 : Z) : Path.Scan :=
  {| Path.startDot := -1; Path.startPart := 0; Path.endIdx := i0 + 1;
     Path.matchedSlash := false; Path.preDotState := 0 |}.

Definition not_dot_slash (c : ascii) : Prop :=
  Ascii.eqb c "/" = false /\ Ascii.eqb c "." = false.

(** The status codes the handler answered with, in order. *)
Definition callback_codes (trace : list Action) : list Z :=
  flat_map (fun a => match a with
                     | Callback statusCode _ => [statusCode]
                     | _ => []
                     end) trace.

(** The metadata writes and the card PUTs of a trace. *)
Definition set_calls (trace : list Action) : list Action :=
  List.filter (fun a => match a with
                        | CallSetMetadata _ _ _ _ _ => true
                        | _ => false
                        end) trace.

Definition put_calls (trace : list Action) : list PutRequest :=
  flat_map (fun a => match a with
                     | CallPut request => [request]
                     | _ => []
                     end) trace.

(** The requests a writer can submit. *)
Definition submitted_by (this : SkillsWriterObj) (request : PutRequest) : Prop :=
  (exists cards st usage, request = saveDataCards this cards st usage)
  \/ (exists now error msg failureType,
        request = saveErrorCard this now error msg failureType)
  \/ (exists now, request = saveProcessingCard this now).

(** A number with an integral value. *)
Definition integral (v : JSVal) : Prop :=
  exists (q : Q) (z : Z), v = JNum q /\ Qeq q (inject_Z z).

(** A usage argument of the allowed format. *)
Definition well_formed_usage (usage : option Usage) : Prop :=
  exists u, usage = Some u /\ In (unit u) usageUnit.values /\ integral (value u).

End Spec.
Import Spec.

(* ===================================================================== *)
(** ** Concrete inputs used in examples *)
(* ===================================================================== *)

Module Sample.

(** [{ text: t }] *)
Definition text_entry (t : string) : Entry :=
  {| text := Some t; image_url := JUndefined; entry_type := None;
     appears := None |}.

(** [{ text: t, image_url: u }] *)
Definition image_entry (t u : string) : Entry :=
  {| text := Some t; image_url := JStr u; entry_type := None;
     appears := None |}.

Definition writer : SkillsWriterObj :=
  {| w_requestId := Some "request-1"; w_skillId := "skill-7";
     w_fileId := Some "file-42";
     fileWriteClient := getBasicClient (Some "write-token") |}.

Definition now : string := "2020-01-01T00:00:00.000Z".

(** A well-formed event, and two events with a required field missing. *)
Definition full_event : EventBody :=
  {| event_id := Some "request-1";
     event_skill := Some {| skill_id := Some "skill-7" |};
     event_source :=
       Some {| source_id := Some "file-42"; source_name := Some "Talk.MP3";
               source_size := Some 2048 |};
     event_token :=
       Some {| token_read := Some {| access_token := Some "read-token" |};
               token_write := Some {| access_token := Some "write-token" |} |} |}.

Definition event_without_skill : EventBody :=
  {| event_id := event_id full_event;
     event_skill := None;
     event_source := event_source full_event;
     event_token := event_token full_event |}.

Definition event_without_source_id : EventBody :=
  {| event_id := event_id full_event;
     event_skill := event_skill full_event;
     event_source :=
       Some {| source_id := None; source_name := Some "Talk.MP3";
               source_size := Some 2048 |};
     event_token := event_token full_event |}.

(** The reader built from [full_event]. *)
Definition reader : FilesReaderObj :=
  {| requestId := Some "request-1";
     skillId := "skill-7";
     fileId := Some "file-42";
     fileName := Some "Talk.MP3";
     fileSize := Some 2048;
     fileFormat := "mp3";
     fileType := "AUDIO";
     fileReadToken := Some "read-token";
     fileWriteToken := Some "write-token";
     fileReadClient := getBasicClient (Some "read-token");
     fileDownloadURL :=
       "https://api.box.com/2.0/files/file-42/content?access_token=read-token" |}.

(** The same reader for a file of [size] bytes. *)
Definition reader_of_size (size : Z) : FilesReaderObj :=
  {| requestId := requestId reader;
     skillId := skillId reader;
     fileId := fileId reader;
     fileName := fileName reader;
     fileSize := Some size;
     fileFormat := fileFormat reader;
     fileType := fileType reader;
     fileReadToken := fileReadToken reader;
     fileWriteToken := fileWriteToken reader;
     fileReadClient := fileReadClient reader;
     fileDownloadURL := fileDownloadURL reader |}.

(** Answers of the representation-info endpoint. *)
Definition info_url : string :=
  "https://api.box.com/2.0/internal_files/42/versions/1/representations/mp3".

Definition rep (state template : string) : RepInfo :=
  {| rep_state := state; rep_url_template := template;
     rep_info_url := info_url |}.

Definition answer (state template : string) : Response :=
  {| statusCode := 200; body := rep state template |}.

End Sample.

(* ===================================================================== *)
(** ** Strings: what [trim] removes *)
(* ===================================================================== *)

Section StringLemmas.

Lemma trimRight_empty_iff (s : string) :
  trimRight s = "" <-> whitespace_only s.
Proof.
  induction s as [|c r IH]; simpl; [tauto|].
  destruct (trimRight r) eqn:Hr.
  - destruct (is_space c) eqn:Hc; split; try tauto; try discriminate.
    intros [H _]. discriminate.
  - split; [discriminate|]. intros [_ H]. apply IH in H. discriminate.
Qed.

Lemma trimLeft_whitespace_iff (s : string) :
  whitespace_only (trimLeft s) <-> whitespace_only s.
Proof.
  induction s as [|c r IH]; simpl; [tauto|].
  destruct (is_space c) eqn:Hc; simpl; rewrite ?Hc; tauto.
Qed.

Lemma trim_empty_iff (s : string) : trim s = "" <-> whitespace_only s.
Proof.
  unfold trim. rewrite trimRight_empty_iff. apply trimLeft_whitespace_iff.
Qed.

Lemma trimLeft_split (s : string) :
  exists l, s = l +:+ trimLeft s /\ whitespace_only l
            /\ starts_nonspace (trimLeft s).
Proof.
  induction s as [|c r (l & Hs & Hl & Hn)]; simpl.
  - exists "". simpl. tauto.
  - destruct (is_space c) eqn:Hc.
    + exists (String c l). split; [by rewrite Hs at 1 | simpl; tauto].
    + exists "". simpl. tauto.
Qed.

Lemma trimRight_split (s : string) :
  exists r, s = trimRight s +:+ r /\ whitespace_only r
            /\ ends_nonspace (trimRight s)
            /\ (starts_nonspace s -> starts_nonspace (trimRight s)).
Proof.
  induction s as [|c rest (r0 & Hs & Hr & He & Hst)]; simpl.
  - exists "". simpl. tauto.
  - destruct (trimRight rest) as [|d r'] eqn:Ht.
    + change (rest = r0) in Hs. subst r0. destruct (is_space c) eqn:Hc.
      * exists (String c rest). simpl. rewrite Hc. repeat split; try done.
      * exists rest. simpl. rewrite Hc. repeat split; done.
    + exists r0. split; [by rewrite Hs at 1 | ].
      repeat split; done.
Qed.

Lemma trim_trimmed_of (t : string) : trimmed_of t (trim t).
Proof.
  destruct (trimLeft_split t) as (l & Ht & Hl & Hn).
  destruct (trimRight_split (trimLeft t)) as (r & Hs & Hr & He & Hst).
  exists l, r. unfold trim. rewrite <- Hs. repeat split; auto.
Qed.

End StringLemmas.

(* ===================================================================== *)
(** ** File type classification *)
(* ===================================================================== *)

Lemma includes_str_In (l : list string) (s : string) :
  includes_str l s = true <-> In s l.
Proof.
  unfold includes_str. rewrite existsb_exists. split.
  - intros (x & Hx & He). apply String.eqb_eq in He. by subst.
  - intros H. exists s. split; [done | apply String.eqb_refl].
Qed.

Lemma includes_str_not_In (l : list string) (s : string) :
  includes_str l s = false <-> ~ In s l.
Proof.
  rewrite <- includes_str_In. destruct (includes_str l s); split; congruence.
Qed.

(** C10. For every file name, the type is decided by looking the
    lowercase extension up in the audio formats first, then in the image
    formats, then in the video formats: the first list that holds it gives
    AUDIO, IMAGE or VIDEO, and an extension in none of them gives
    DOCUMENT. *)
Theorem getFileType_first_match (fileName : string) :
  let fmt := getFileFormat fileName in
  (In fmt boxAudioFormats -> getFileType fmt = "AUDIO") /\
  (~ In fmt boxAudioFormats -> In fmt boxImageFormats ->
   getFileType fmt = "IMAGE") /\
  (~ In fmt boxAudioFormats -> ~ In fmt boxImageFormats ->
   In fmt boxVideoFormats -> getFileType fmt = "VIDEO") /\
  (~ In fmt boxAudioFormats -> ~ In fmt boxImageFormats ->
   ~ In fmt boxVideoFormats -> getFileType fmt = "DOCUMENT").
Proof.
  intros fmt. unfold getFileType.
  repeat split.
  - intros Ha. apply includes_str_In in Ha. by rewrite Ha.
  - intros Ha Hi. apply includes_str_not_In in Ha. apply includes_str_In in Hi.
    by rewrite Ha, Hi.
  - intros Ha Hi Hv. apply includes_str_not_In in Ha, Hi.
    apply includes_str_In in Hv. by rewrite Ha, Hi, Hv.
  - intros Ha Hi Hv. apply includes_str_not_In in Ha, Hi, Hv.
    by rewrite Ha, Hi, Hv.
Qed.

(** A video under a dotted directory name, and a plain text file. *)
Lemma getFileType_first_match_witness : getFileType (getFileFormat "reports/Clip.final.MP4") = "VIDEO"
  /\ getFileType (getFileFormat "notes.txt") = "DOCUMENT".
Proof.
  split.
  - apply (proj1 (proj2 (proj2 (getFileType_first_match "reports/Clip.final.MP4")))).
    + apply includes_str_not_In. vm_compute. reflexivity.
    + apply includes_str_not_In. reflexivity.
    + apply includes_str_In. reflexivity.
  - apply (proj2 (proj2 (proj2 (getFileType_first_match "notes.txt"))));
      apply includes_str_not_In; reflexivity.
Defined.

(* ===================================================================== *)
(** ** Normalising data lists *)
(* ===================================================================== *)

Section ProcessDataList.

Lemma truthy_str_true_iff (s : string) : truthy_str s = true <-> s <> "".
Proof.
  unfold truthy_str. rewrite negb_true_iff. split.
  - intros H ->. by rewrite String.eqb_refl in H.
  - intros H. apply String.eqb_neq. exact H.
Qed.

Lemma has_text_true_iff (e : Entry) :
  has_text e = true <-> exists t, text e = Some t /\ ~ whitespace_only t.
Proof.
  unfold has_text. destruct (text e) as [t|].
  - rewrite andb_true_iff, !truthy_str_true_iff, trim_empty_iff. split.
    + intros [_ H]. eauto.
    + intros (t' & [= <-] & H). split; [|exact H].
      intros ->. apply H. exact I.
  - split; [discriminate | intros (t & [=] & _)].
Qed.

Lemma has_text_false_iff (e : Entry) : has_text e = false <-> blank e.
Proof.
  rewrite <- not_true_iff_false, has_text_true_iff. unfold blank.
  destruct (text e) as [t|].
  - split.
    + intros H. destruct (trim t) eqn:Ht.
      * by apply trim_empty_iff.
      * exfalso. apply H. exists t. split; [done|].
        rewrite <- trim_empty_iff. congruence.
    + intros H (t' & [= <-] & Hn). by apply Hn.
  - split; [done | intros _ (t & [=] & _)].
Qed.

Lemma processData_normal_form (e : Entry) :
  has_text e = true ->
  exists e', processData None e = Normal e' /\ normal_form e e'.
Proof.
  intros H. apply has_text_true_iff in H as (t & Ht & Hn).
  unfold processData. simpl. rewrite Ht. simpl.
  eexists. split; [reflexivity|].
  exists t, (trim t). simpl. repeat split; try done.
  - apply trim_trimmed_of.
  - intros (u & ->). reflexivity.
  - intros Hc. destruct (image_url e) eqn:Hi; try reflexivity.
    exfalso. apply Hc. by eexists.
Qed.

Lemma processDataList_Normalised (dataList : list Entry) :
  exists out,
    processDataList dataList None = Normal out /\ Normalised dataList out.
Proof.
  unfold processDataList.
  induction dataList as [|e l (out & Hout & HN)]; simpl.
  - exists []. split; [reflexivity | constructor].
  - destruct (has_text e) eqn:He.
    + destruct (processData_normal_form e He) as (e' & He' & Hnf).
      exists (e' :: out). simpl. rewrite He'. simpl. rewrite Hout. simpl.
      split; [reflexivity | by constructor].
    + exists out. split; [exact Hout|].
      apply Normalised_drop; [by apply has_text_false_iff | exact HN].
Qed.

End ProcessDataList.

(** C6. [processDataList] (called, as everywhere in the kit, without a
    duration) returns for every list: the entries with no or blank text are
    dropped, every other entry appears in order with its text trimmed and
    its type set to ["image"] when it carries an image URL and to ["text"]
    otherwise; on [{text:" a "}, {text:""}, {text:"  "}] the result is the
    single entry with text ["a"]. *)
Theorem processDataList_drops_blank_and_normalises (dataList : list Entry) :
  (exists out,
     processDataList dataList None = Normal out /\ Normalised dataList out)
  /\ processDataList
       [Sample.text_entry " a "; Sample.text_entry ""; Sample.text_entry "  "]
       None
     = Normal [{| text := Some "a"; image_url := JUndefined;
                  entry_type := Some "text"; appears := None |}].
Proof.
  split; [apply processDataList_Normalised | reflexivity].
Qed.

(* ===================================================================== *)
(** ** Enumerations and usage records *)
(* ===================================================================== *)

Section Enumerations.

Lemma strict_eq_JStr (v : JSVal) (s : string) :
  strict_eq v (JStr s) = true <-> v = JStr s.
Proof.
  destruct v; simpl; try (split; [discriminate | intros [=]]).
  rewrite String.eqb_eq. split; [by intros -> | by intros [= ->]].
Qed.

Lemma same_value_zero_JStr (v : JSVal) (s : string) :
  same_value_zero v (JStr s) = true <-> v = JStr s.
Proof.
  destruct v; apply strict_eq_JStr.
Qed.

(** Membership in an enumeration of strings, as [validateEnum] decides it. *)
Lemma validateEnum_In (v : JSVal) (l : list string) :
  validateEnum v (map JStr l) = true <-> In v (map JStr l).
Proof.
  unfold validateEnum, includes. rewrite existsb_exists. split.
  - intros (x & Hx & He). apply in_map_iff in Hx as (s & <- & Hs).
    apply same_value_zero_JStr in He as ->. apply in_map_iff. eauto.
  - intros H. exists v. split; [exact H|].
    apply in_map_iff in H as (s & <- & _). by apply same_value_zero_JStr.
Qed.

Lemma validateEnum_not_In (v : JSVal) (l : list string) :
  validateEnum v (map JStr l) = false <-> ~ In v (map JStr l).
Proof.
  rewrite <- validateEnum_In. destruct (validateEnum v (map JStr l));
    split; congruence.
Qed.

Lemma Number_isInteger_integral (v : JSVal) :
  Number_isInteger v = true <-> integral v.
Proof.
  unfold integral. destruct v as [| |b|q| |n|s];
    try (split; [discriminate | by intros (q' & z & [=] & _)]).
  simpl. rewrite Z.eqb_eq, Z.mod_divide by done. split.
  - intros [z Hz]. exists q, z. split; [done|].
    unfold Qeq. simpl. lia.
  - intros (q' & z & [= <-] & Hq). exists z.
    unfold Qeq in Hq. simpl in Hq. lia.
Qed.

Lemma validateUsage_well_formed (usage : option Usage) :
  validateUsage usage = true <-> well_formed_usage usage.
Proof.
  unfold validateUsage, well_formed_usage. destruct usage as [u|].
  - rewrite andb_true_iff, Number_isInteger_integral.
    unfold usageUnit.values. rewrite validateEnum_In. split.
    + intros [H1 H2]. eauto.
    + intros (u' & [= <-] & H1 & H2). done.
  - split; [discriminate | by intros (u & [=] & _)].
Qed.

End Enumerations.

(* ===================================================================== *)
(** ** Saving cards *)
(* ===================================================================== *)

(** C2. For every list of cards, status and usage argument, the body that
    [saveDataCards] puts has status ["success"] when the status argument is
    not a value of the status enumeration; its usage is [null] unless the
    persisted status is ["success"], and then it is the usage argument when
    that is well formed and [{unit: "files", value: 1}] when it is absent or
    malformed; the body is [{status, file: {type: "file", id}, metadata:
    {cards}, usage}], put to [urlPath("/skill_invocations", skillId)]. *)
Theorem saveDataCards_body (this : SkillsWriterObj) (cards : list Card)
    (st : JSVal) (usage : option Usage) :
  let req := saveDataCards this cards st usage in
  let b := put_body req in
  (~ In st skillInvocationStatus.values -> body_status b = JStr "success")
  /\ (body_status b <> JStr "success" -> body_usage b = None)
  /\ (body_status b = JStr "success" -> well_formed_usage usage ->
      body_usage b = usage)
  /\ (body_status b = JStr "success" -> ~ well_formed_usage usage ->
      body_usage b = Some {| unit := JStr "files"; value := JNum 1 |})
  /\ body_file b = {| file_type := "file"; file_id := w_fileId this |}
  /\ body_metadata_cards b = cards
  /\ put_path req = urlPath "/skill_invocations" (w_skillId this)
  /\ put_client req = fileWriteClient this.
Proof.
  cbv zeta. unfold saveDataCards, putData.
  cbn [put_body put_path put_client body_status body_usage body_file
       body_metadata_cards].
  set (status := if validateEnum st skillInvocationStatus.values
                 then st else JStr skillInvocationStatus.SUCCESS).
  pose proof (strict_eq_JStr status skillInvocationStatus.SUCCESS) as Hse.
  pose proof (validateUsage_well_formed usage) as Hwf.
  destruct (strict_eq status (JStr skillInvocationStatus.SUCCESS)).
  - repeat split; try done.
    + intros H. apply validateEnum_not_In in H. subst status.
      unfold skillInvocationStatus.values. by rewrite H.
    + intros H. destruct Hse as [Hse _]. by specialize (Hse eq_refl).
    + intros _ Hu. pose proof Hu as (u & -> & _).
      apply Hwf in Hu. by rewrite Hu.
    + intros _ Hu. destruct (validateUsage usage); [|done].
      destruct Hwf as [Hwf _]. by specialize (Hwf eq_refl).
  - repeat split; try done.
    + intros H. apply validateEnum_not_In in H. subst status.
      unfold skillInvocationStatus.values. by rewrite H.
    + intros H. apply Hse in H. discriminate.
    + intros H. apply Hse in H. discriminate.
Qed.

(** An unknown status and no usage: ["success"] with one file unit. *)
Lemma saveDataCards_body_witness :
  body_status (put_body (saveDataCards Sample.writer [] (JStr "done") None))
    = JStr "success"
  /\ body_usage (put_body (saveDataCards Sample.writer [] (JStr "done") None))
    = Some {| unit := JStr "files"; value := JNum 1 |}.
Proof.
  pose proof (saveDataCards_body Sample.writer [] (JStr "done") None)
    as (H1 & _ & _ & H4 & _).
  assert (Hs : body_status
                 (put_body (saveDataCards Sample.writer [] (JStr "done") None))
               = JStr "success").
  { apply H1. vm_compute. intuition discriminate. }
  split; [exact Hs|].
  apply H4; [exact Hs|].
  intros (u & Hu & _). discriminate.
Defined.

(** C8 (as the specification states it, refuted).  Of the statuses the
    specification lists, ["pending"] is not persisted unchanged. *)
Lemma saveDataCards_spec_statuses_not_all_persisted :
  ~ (forall st, In st spec_InvocationStatus ->
     forall this cards usage,
       body_status (put_body (saveDataCards this cards (JStr st) usage))
       = JStr st).
Proof.
  intros H.
  assert (Hin : In "pending" spec_InvocationStatus) by (simpl; tauto).
  specialize (H "pending" Hin Sample.writer [] None).
  vm_compute in H. discriminate H.
Qed.

(** C8 (amended).  The values of the status enumeration are ["invoked"],
    ["processing"], ["skills_pending_status"], ["transient_failure"],
    ["permanent_failure"] and ["success"]; [saveDataCards] persists each of
    them unchanged, and replaces ["pending"], which is none of them, by
    ["success"]. *)
Theorem saveDataCards_persists_enumerated_status (this : SkillsWriterObj)
    (cards : list Card) (usage : option Usage) (st : string) :
  In st ["invoked"; "processing"; "skills_pending_status";
         "transient_failure"; "permanent_failure"; "success"] ->
  skillInvocationStatus.values
  = map JStr ["invoked"; "processing"; "skills_pending_status";
              "transient_failure"; "permanent_failure"; "success"]
  /\ body_status (put_body (saveDataCards this cards (JStr st) usage)) = JStr st
  /\ body_status (put_body (saveDataCards this cards (JStr "pending") usage))
     = JStr "success".
Proof.
  intros Hin. split; [reflexivity|]. split; [|reflexivity].
  unfold saveDataCards, putData. cbn [put_body body_status].
  assert (Hv : validateEnum (JStr st) skillInvocationStatus.values = true).
  { apply validateEnum_In. apply in_map. exact Hin. }
  by rewrite Hv.
Qed.

(** ["processing"] is persisted as it is. *)
Lemma saveDataCards_persists_enumerated_status_witness :
  body_status
    (put_body (saveDataCards Sample.writer [] (JStr "processing") None))
  = JStr "processing".
Proof.
  apply (saveDataCards_persists_enumerated_status
           Sample.writer [] None "processing").
  simpl. tauto.
Defined.

(** C5. [saveErrorCard] submits exactly one card, a status card.  With a
    custom message the card's status is [{code: "custom_error", message}]
    whatever the error argument; without one the code is the error argument
    when that is a value of the error enumeration and
    ["skills_unknown_error"] otherwise.  The invocation status is
    ["transient_failure"] when that is the failure type passed and
    ["permanent_failure"] in every other case; no usage is attached. *)
Theorem saveErrorCard_card_and_status (this : SkillsWriterObj) (now : string)
    (error : JSVal) (msg : option string) (failureType : JSVal) :
  let b := put_body (saveErrorCard this now error msg failureType) in
  exists card,
    body_metadata_cards b = [card]
    /\ skill_card_type card = "status"
    /\ (forall m, msg = Some m -> m <> "" ->
        status card = {| code := JStr "custom_error"; message := Some m |})
    /\ (msg = None \/ msg = Some "" -> In error SkillsErrorEnum.values ->
        status card = {| code := error; message := None |})
    /\ (msg = None \/ msg = Some "" -> ~ In error SkillsErrorEnum.values ->
        status card = {| code := JStr "skills_unknown_error"; message := None |})
    /\ (failureType = JStr "transient_failure" ->
        body_status b = JStr "transient_failure")
    /\ (failureType <> JStr "transient_failure" ->
        body_status b = JStr "permanent_failure")
    /\ body_usage b = None.
Proof.
  cbv zeta. unfold saveErrorCard.
  set (ft := if strict_eq failureType _ then failureType else _).
  set (errorCode := if validateEnum error _ then error else _).
  set (errorObj := match msg with Some _ => _ | None => _ end).
  assert (Hft : ft = JStr "transient_failure" \/ ft = JStr "permanent_failure").
  { subst ft. destruct (strict_eq failureType _) eqn:He; [left|by right].
    by apply strict_eq_JStr in He. }
  assert (Hbody : forall c,
            put_body (saveDataCards this [c] ft None)
            = {| body_status := ft;
                 body_file := {| file_type := "file"; file_id := w_fileId this |};
                 body_metadata_cards := [c];
                 body_usage := None |}).
  { intros c. destruct Hft as [-> | ->]; reflexivity. }
  rewrite Hbody. cbn [body_metadata_cards body_status body_usage].
  eexists. split; [reflexivity|].
  cbn [createMetadataCard skill_card_type status default].
  split; [reflexivity|].
  unfold SkillsErrorEnum.values in *.
  repeat split.
  - intros m -> Hm. subst errorObj.
    apply truthy_str_true_iff in Hm. by rewrite Hm.
  - intros Hm Hin. apply validateEnum_In in Hin.
    subst errorObj errorCode. rewrite Hin. by destruct Hm as [-> | ->].
  - intros Hm Hin. apply validateEnum_not_In in Hin.
    subst errorObj errorCode. rewrite Hin. by destruct Hm as [-> | ->].
  - intros ->. reflexivity.
  - intros Hne. subst ft. destruct (strict_eq failureType _) eqn:He; [|done].
    by apply strict_eq_JStr in He.
Qed.

(** A custom message with an unknown code and a transient failure. *)
Lemma saveErrorCard_card_and_status_witness :
  exists card,
    body_metadata_cards
      (put_body (saveErrorCard Sample.writer Sample.now (JStr "no_such_code")
                   (Some "Try again later") (JStr "transient_failure")))
    = [card]
    /\ status card
       = {| code := JStr "custom_error"; message := Some "Try again later" |}
    /\ body_status
         (put_body (saveErrorCard Sample.writer Sample.now
                      (JStr "no_such_code") (Some "Try again later")
                      (JStr "transient_failure")))
       = JStr "transient_failure".
Proof.
  destruct (saveErrorCard_card_and_status Sample.writer Sample.now
              (JStr "no_such_code") (Some "Try again later")
              (JStr "transient_failure"))
    as (card & Hc & _ & Hm & _ & _ & Ht & _).
  exists card. split; [exact Hc|]. split.
  - apply Hm; [reflexivity | discriminate].
  - apply Ht. reflexivity.
Defined.

(* ===================================================================== *)
(** ** Title codes *)
(* ===================================================================== *)

Section TitleCode.

Lemma lower_char_space (c : ascii) :
  Ascii.eqb (lower_char c) " " = Ascii.eqb c " ".
Proof.
  destruct c as [[] [] [] [] [] [] [] []]; reflexivity.
Qed.

Lemma toLowerCase_app (a b : string) :
  toLowerCase (a +:+ b) = toLowerCase a +:+ toLowerCase b.
Proof.
  induction a as [|c a IH]; [reflexivity|].
  change (String c a +:+ b) with (String c (a +:+ b)).
  cbn [toLowerCase]. rewrite IH. reflexivity.
Qed.

Lemma substring_all (s : string) : String.substring 0 (String.length s) s = s.
Proof. induction s as [|c s IH]; simpl; [reflexivity | by rewrite IH]. Qed.

(** At a space the replacement happens and the rest is copied. *)
Lemma replace_space_here (s : string) :
  replace " " "_" (String " " s) = String "_" s.
Proof.
  unfold replace; fold replace. cbn.
  assert (Hp : String.prefix "" s = true) by (by destruct s).
  rewrite Hp, Nat.sub_0_r, substring_all. reflexivity.
Qed.

(** Before the first space nothing changes. *)
Lemma replace_space_skip (c : ascii) (s : string) :
  Ascii.eqb c " " = false ->
  replace " " "_" (String c s) = String c (replace " " "_" s).
Proof.
  intros H. unfold replace at 1; fold replace. cbn [String.prefix].
  destruct (ascii_dec " " c) as [<-|Hne]; [discriminate|]. reflexivity.
Qed.

Lemma replace_first_space (a b : string) :
  no_space a ->
  replace " " "_" (a +:+ " " +:+ b) = a +:+ "_" +:+ b.
Proof.
  unfold no_space. induction a as [|c a IH]; intros H.
  - apply replace_space_here.
  - cbn [occurs] in H. apply orb_false_iff in H as [Hc Ha].
    change (String c a +:+ " " +:+ b) with (String c (a +:+ " " +:+ b)).
    rewrite replace_space_skip.
    + rewrite IH by exact Ha. reflexivity.
    + rewrite Ascii.eqb_sym. exact Hc.
Qed.

Lemma no_space_toLowerCase (a : string) : no_space a -> no_space (toLowerCase a).
Proof.
  unfold no_space. induction a as [|c a IH]; [done|].
  cbn [toLowerCase occurs]. rewrite !orb_false_iff. intros [Hc Ha]. split; [|by apply IH].
  rewrite Ascii.eqb_sym, lower_char_space, Ascii.eqb_sym. exact Hc.
Qed.

Lemma titleCode_first_space (a b : string) :
  no_space a ->
  titleCode (a +:+ " " +:+ b)
  = "skills_" +:+ toLowerCase a +:+ "_" +:+ toLowerCase b.
Proof.
  intros H. unfold titleCode. rewrite !toLowerCase_app.
  change (toLowerCase " ") with " ".
  apply (replace_first_space ("skills_" +:+ toLowerCase a)).
  apply no_space_toLowerCase in H. unfold no_space in *.
  change (occurs " " ("skills_" +:+ toLowerCase a))
    with (occurs " " (toLowerCase a)).
  exact H.
Qed.

End TitleCode.

(** C9.  The title code is a function of the title: ["skills_"] followed
    by the lowercased title in which the first space, and only that one,
    has become an underscore.  Whatever follows the first space is copied,
    so a second space of the title remains in the code. *)
Theorem createMetadataCard_title_code_first_space_only
    (this : SkillsWriterObj) (now : string) (type : string)
    (st : option StatusObj) (en : option ArrayRef) (du : option Q)
    (a b : string) :
  no_space a ->
  title_code
    (skill_card_title
       (createMetadataCard this now type (a +:+ " " +:+ b) st en du))
  = "skills_" +:+ toLowerCase a +:+ "_" +:+ toLowerCase b.
Proof. intros H. cbn [createMetadataCard skill_card_title title_code]. by apply titleCode_first_space. Qed.

(** The title ["My Card Title"] gets the code ["skills_my_card title"]. *)
Lemma createMetadataCard_title_code_first_space_only_witness :
  title_code
    (skill_card_title
       (createMetadataCard Sample.writer Sample.now "keyword" "My Card Title"
          None None None))
  = "skills_my_card title".
Proof.
  apply (createMetadataCard_title_code_first_space_only
           Sample.writer Sample.now "keyword" None None None "My" "Card Title").
  reflexivity.
Defined.

(* ===================================================================== *)
(** ** The event parser *)
(* ===================================================================== *)

(** C7 (as the specification states it, refuted).  An event without its
    skill object makes the constructor fail with a [TypeError], and an
    event without a source id is accepted: neither fails with the typed
    invalid-event error. *)
Lemma FilesReader_missing_field_no_invalid_event :
  (required_field_absent Sample.event_without_skill
   /\ FilesReader Sample.event_without_skill
      = Throw (TypeError "Cannot read properties of undefined (reading 'id')"))
  /\ (required_field_absent Sample.event_without_source_id
      /\ exists r, FilesReader Sample.event_without_source_id = Normal r
                   /\ fileId r = None)
  /\ ~ (forall ev, required_field_absent ev ->
        FilesReader ev = Throw (Error SkillsErrorEnum.INVALID_EVENT)).
Proof.
  assert (H1 : required_field_absent Sample.event_without_skill)
    by (left; reflexivity).
  assert (H2 : required_field_absent Sample.event_without_source_id)
    by (right; left; reflexivity).
  repeat split; try done.
  - eexists. split; reflexivity.
  - intros H. specialize (H _ H1). discriminate H.
Qed.

(** C7 (amended).  The constructor validates nothing.  When the skill id,
    the source name and the [read] and [write] token objects are all there
    it succeeds and copies the fields as they are, so that a missing source
    id, source size or access token is left undefined; when one of them is
    missing it fails with the [TypeError] of reading through the missing
    value, never with the typed invalid-event error. *)
Theorem FilesReader_fails_by_TypeError_only (ev : EventBody) :
  (dereferenced_present ev ->
   exists r, FilesReader ev = Normal r
             /\ requestId r = event_id ev
             /\ Some (skillId r) = the_skill_id ev
             /\ fileId r = the_source_id ev
             /\ fileName r = the_source_name ev
             /\ fileSize r = the_source_size ev
             /\ fileReadToken r = the_read_token ev
             /\ fileWriteToken r = the_write_token ev)
  /\ (~ dereferenced_present ev ->
      exists msg, FilesReader ev = Throw (TypeError msg)).
Proof.
  destruct ev as [rid sk so tk]. unfold dereferenced_present, FilesReader.
  unfold the_skill_id, the_source_id, the_source_name, the_source_size,
    the_read_token, the_write_token.
  cbn [event_id event_skill event_source event_token].
  split.
  - intros (Hs & Hn & t & r & w & -> & Hr & Hw).
    destruct sk as [[[sid|]]|]; try done.
    destruct so as [[soid [n|] sz]|]; try done.
    cbn. rewrite Hr, Hw. cbn. eexists. repeat split.
  - intros Hno.
    destruct sk as [[[sid|]]|]; cbn; eauto.
    destruct so as [[soid [n|] sz]|]; cbn; eauto.
    destruct tk as [[[rd|] [wr|]]|]; cbn; eauto.
    exfalso. apply Hno. repeat split; try done. by eexists _, _, _.
Qed.

(** The two sample events with a missing field. *)
Lemma FilesReader_fails_by_TypeError_only_witness :
  (exists r, FilesReader Sample.event_without_source_id = Normal r
             /\ fileId r = None)
  /\ (exists msg, FilesReader Sample.event_without_skill = Throw (TypeError msg)).
Proof.
  split.
  - destruct (proj1 (FilesReader_fails_by_TypeError_only
                       Sample.event_without_source_id))
      as (r & Hr & _ & _ & Hid & _).
    + repeat split; try discriminate. by eexists _, _, _.
    + exists r. split; [exact Hr | exact Hid].
  - apply (proj2 (FilesReader_fails_by_TypeError_only
                    Sample.event_without_skill)).
    intros (Hs & _). apply Hs. reflexivity.
Defined.

(* ===================================================================== *)
(** ** Representation polling *)
(* ===================================================================== *)

Section Polling.

Variable urlTemplate_expand : string -> string -> string.

Lemma delays_app ms t1 t2 : delays ms (t1 ++ t2) = (delays ms t1 + delays ms t2)%nat.
Proof. unfold delays. by rewrite List.filter_app, length_app. Qed.

Lemma delays_unexpected ms r : delays ms (unexpected r) = 0%nat.
Proof. unfold unexpected. by destruct (negb _). Qed.

Lemma requests_app t1 t2 : requests (t1 ++ t2) = (requests t1 + requests t2)%nat.
Proof. unfold requests. by rewrite List.filter_app, length_app. Qed.

Lemma requests_unexpected r : requests (unexpected r) = 0%nat.
Proof. unfold unexpected. by destruct (negb _). Qed.

(** A terminal answer ends the polling, under either binding. *)
Lemma poll_terminal (P : PromiseBinding) infoURL response rest :
  terminal (rep_state (body response)) ->
  pollRepresentationInfoWith P infoURL (response :: rest)
  = (Get infoURL :: unexpected response, Resolved (body response)).
Proof.
  intros [H | [H | H]]; simpl; rewrite H; reflexivity.
Qed.

(** An unrecognised state is a processing error, under either binding. *)
Lemma poll_unknown (P : PromiseBinding) infoURL response rest :
  ~ terminal (rep_state (body response)) ->
  ~ in_progress (rep_state (body response)) ->
  exists trace,
    pollRepresentationInfoWith P infoURL (response :: rest)
    = (trace, Rejected (Error "skills_file_processing_error"))
    /\ delays 1000 trace = 0%nat.
Proof.
  unfold terminal, in_progress. intros Ht Hp. simpl.
  destruct (String.eqb_spec (rep_state (body response)) "success"); [tauto|].
  destruct (String.eqb_spec (rep_state (body response)) "viewable"); [tauto|].
  destruct (String.eqb_spec (rep_state (body response)) "error"); [tauto|].
  destruct (String.eqb_spec (rep_state (body response)) "none"); [tauto|].
  destruct (String.eqb_spec (rep_state (body response)) "pending"); [tauto|].
  simpl. eexists. split; [reflexivity|].
  change (delays 1000 ([Get infoURL] ++ unexpected response ++
            [ConsoleError ("Unknown representation status: "
                           +:+ rep_state (body response))]) = 0%nat).
  by rewrite !delays_app, delays_unexpected.
Qed.

(** With a [Promise] that has [delay], an answer in progress costs one
    timer of 1000 ms and one more request. *)
Lemma poll_bluebird_step infoURL response rest :
  in_progress (rep_state (body response)) ->
  pollRepresentationInfoWith BluebirdPromise infoURL (response :: rest)
  = (Get infoURL :: unexpected response ++ Delay 1000
       :: fst (pollRepresentationInfoWith BluebirdPromise infoURL rest),
     snd (pollRepresentationInfoWith BluebirdPromise infoURL rest)).
Proof.
  intros [H | H]; simpl; rewrite H; simpl;
    by destruct (pollRepresentationInfoWith BluebirdPromise infoURL rest).
Qed.

(** With a [Promise] that has [delay] there is no cap: after any number
    of answers in progress, the poller has waited 1000 ms once per answer
    and continues with the rest as if it started there. *)
Lemma poll_bluebird_waits infoURL (waiting rest : list Response) :
  Forall (fun r => in_progress (rep_state (body r))) waiting ->
  let before := pollRepresentationInfoWith BluebirdPromise infoURL rest in
  let all := pollRepresentationInfoWith BluebirdPromise infoURL (waiting ++ rest) in
  snd all = snd before
  /\ delays 1000 (fst all) = (length waiting + delays 1000 (fst before))%nat
  /\ requests (fst all) = (length waiting + requests (fst before))%nat.
Proof.
  intros Hw. cbv zeta. induction Hw as [|r l Hr Hl (IH1 & IH2 & IH3)].
  - simpl. tauto.
  - change ((r :: l) ++ rest)%list with (r :: (l ++ rest))%list.
    rewrite (poll_bluebird_step _ _ _ Hr).
    cbn [fst snd]. split; [exact IH1|].
    change (Get infoURL :: unexpected r ++ Delay 1000 :: ?t)%list
      with ([Get infoURL] ++ unexpected r ++ [Delay 1000] ++ t)%list.
    rewrite !delays_app, !requests_app, delays_unexpected,
      requests_unexpected, IH2, IH3.
    split; reflexivity.
Qed.

(** With the module's own [Promise], an answer in progress ends the
    polling with a [TypeError]: no timer is started, nothing is asked
    again. *)
Lemma poll_in_progress_rejects infoURL response rest :
  in_progress (rep_state (body response)) ->
  pollRepresentationInfo infoURL (response :: rest)
  = (Get infoURL :: unexpected response,
     Rejected (TypeError "Promise.delay is not a function")).
Proof.
  unfold pollRepresentationInfo.
  intros [H | H]; simpl; rewrite H; reflexivity.
Qed.

(** The sequence pending, pending, success under a [Promise] with
    [delay]: two timers, three requests, the third answer's template. *)
Lemma poll_bluebird_pending_pending_success infoURL t1 t2 t3 :
  pollRepresentationInfoWith BluebirdPromise infoURL
    [Sample.answer "pending" t1; Sample.answer "pending" t2;
     Sample.answer "success" t3]
  = ([Get infoURL; Delay 1000; Get infoURL; Delay 1000; Get infoURL],
     Resolved (Sample.rep "success" t3)).
Proof. reflexivity. Qed.

Lemma getBasicFormatFileURL_bluebird_pending_pending_success t0 t1 t2 t3 :
  snd (getBasicFormatFileURLWith urlTemplate_expand BluebirdPromise
         Sample.reader [Sample.rep "pending" t0]
         [Sample.answer "pending" t1; Sample.answer "pending" t2;
          Sample.answer "success" t3])
  = Resolved (urlTemplate_expand t3 "" +:+ "?access_token=read-token").
Proof. reflexivity. Qed.

(** A polled representation that ends in [error] makes the caller raise
    the processing error, under either binding. *)
Lemma getBasicFormatFileURL_error_after_poll (P : PromiseBinding)
    this ft repInfo response rest :
  FileType.get (fileType this) = Some ft ->
  in_progress (rep_state repInfo) ->
  rep_state (body response) = "error" ->
  snd (getBasicFormatFileURLWith urlTemplate_expand P this [repInfo]
         (response :: rest))
  = Rejected (Error "skills_file_processing_error").
Proof.
  intros Hft Hp He. unfold getBasicFormatFileURLWith. rewrite Hft.
  cbn [last].
  assert (Hpoll : pollRepresentationInfoWith P (rep_info_url repInfo)
                    (response :: rest)
                  = (Get (rep_info_url repInfo) :: unexpected response,
                     Resolved (body response))).
  { apply poll_terminal. right. right. exact He. }
  rewrite Hpoll.
  destruct Hp as [Hp | Hp]; rewrite Hp; simpl; rewrite He; reflexivity.
Qed.

End Polling.

(** C1.  Where the claim has the poller wait 1000 ms and ask again, the
    poller of the module stops: on an answer whose state is [none] or
    [pending] it rejects with the [TypeError] of calling the missing
    [Promise.delay], having asked once and started no timer, and
    [getBasicFormatFileURL] rejects with it instead of going on to a later
    answer. *)
Theorem pollRepresentationInfo_rejects_when_in_progress
    (urlTemplate_expand : string -> string -> string)
    (this : FilesReaderObj) (ft : FileTypeInfo) (repInfo : RepInfo)
    (response : Response) (rest : list Response) :
  FileType.get (fileType this) = Some ft ->
  in_progress (rep_state repInfo) ->
  in_progress (rep_state (body response)) ->
  let polled :=
    pollRepresentationInfo (rep_info_url repInfo) (response :: rest) in
  polled = (Get (rep_info_url repInfo) :: unexpected response,
            Rejected (TypeError "Promise.delay is not a function"))
  /\ delays 1000 (fst polled) = 0%nat
  /\ requests (fst polled) = 1%nat
  /\ snd (getBasicFormatFileURL urlTemplate_expand this [repInfo]
            (response :: rest))
     = Rejected (TypeError "Promise.delay is not a function").
Proof.
  intros Hft Hrep Hresp. cbv zeta.
  pose proof (poll_in_progress_rejects (rep_info_url repInfo) response rest
                Hresp) as Hpoll.
  rewrite Hpoll. cbn [fst snd].
  split; [reflexivity|].
  change (Get (rep_info_url repInfo) :: unexpected response)
    with ([Get (rep_info_url repInfo)] ++ unexpected response)%list.
  rewrite delays_app, requests_app, delays_unexpected, requests_unexpected.
  split; [reflexivity|]. split; [reflexivity|].
  unfold getBasicFormatFileURL, getBasicFormatFileURLWith.
  rewrite Hft. cbn [last].
  unfold pollRepresentationInfo in Hpoll. rewrite Hpoll.
  destruct Hrep as [Hrep | Hrep]; rewrite Hrep; reflexivity.
Qed.

(** The answers pending, pending, success: one request, no timer, no URL. *)
Lemma pollRepresentationInfo_rejects_when_in_progress_witness :
  pollRepresentationInfo Sample.info_url
    [Sample.answer "pending" "t1"; Sample.answer "pending" "t2";
     Sample.answer "success" "t3"]
  = ([Get Sample.info_url],
     Rejected (TypeError "Promise.delay is not a function"))
  /\ snd (getBasicFormatFileURL (fun t _ => t) Sample.reader
            [Sample.rep "pending" "t0"]
            [Sample.answer "pending" "t1"; Sample.answer "pending" "t2";
             Sample.answer "success" "t3"])
     = Rejected (TypeError "Promise.delay is not a function").
Proof.
  destruct (pollRepresentationInfo_rejects_when_in_progress
              (fun t _ => t) Sample.reader FileType.AUDIO
              (Sample.rep "pending" "t0") (Sample.answer "pending" "t1")
              [Sample.answer "pending" "t2"; Sample.answer "success" "t3"])
    as (Hp & _ & _ & Hu).
  - reflexivity.
  - right. reflexivity.
  - right. reflexivity.
  - split; [exact Hp | exact Hu].
Defined.

(* ===================================================================== *)
(** ** Faces cards *)
(* ===================================================================== *)

Section FacesCard.

Variable thumbnail : string -> option string.

(** Every element of [Object.entries] is a pair, and a pair has no
    [image_url]. *)
Lemma read_image_url_pairs (key : nat -> string) (a : list Entry) :
  Forall (fun item => read_image_url item = JUndefined)
         (imap (fun i e => ItemPair (key i) e) a).
Proof.
  revert key. induction a as [|e a IH]; intros key; simpl.
  - constructor.
  - constructor; [reflexivity | apply (IH (key ∘ S))].
Qed.

Lemma read_image_url_Object_entries (a : list Entry) :
  Forall (fun item => read_image_url item = JUndefined) (Object_entries a).
Proof. apply read_image_url_pairs. Qed.

(** So every promise of [dataURIPromises] resolves to [undefined]. *)
Lemma dataURIs_undefined (a : list Entry) (i : nat) :
  default JUndefined
    (map (fun faceData => dataURIPromise thumbnail (read_image_url faceData))
         (Object_entries a) !! i)
  = JUndefined.
Proof.
  pose proof (read_image_url_Object_entries a) as H.
  revert i. induction H as [|item l Hi Hl IH]; intros [|i]; simpl;
    first [done | by rewrite Hi | apply IH].
Qed.

Lemma assign_back_undefined (dataURIs : list JSVal) (a : list Entry) (i : nat) :
  default JUndefined (dataURIs !! i) = JUndefined ->
  assign_back dataURIs a i = a.
Proof.
  intros H. unfold assign_back. destruct (a !! i) as [e|] eqn:He; [|done].
  rewrite H. unfold js_or. simpl. apply list_insert_id.
  rewrite He. by destruct e.
Qed.

Lemma assign_loop_undefined (dataURIs : list JSVal) (idx : list nat)
    (a : list Entry) :
  (forall i, default JUndefined (dataURIs !! i) = JUndefined) ->
  fold_left (assign_back dataURIs) idx a = a.
Proof.
  intros H. induction idx as [|i idx IH]; simpl; [done|].
  by rewrite assign_back_undefined.
Qed.

(** What [createFacesCard] returns: the card over the processed entries,
    which the loop leaves as they were. *)
Lemma createFacesCard_result this now (heap : gmap ArrayRef (list Entry))
    facesDataList duration title processed :
  processDataList facesDataList None = Normal processed ->
  exists card heap',
    createFacesCard thumbnail this now heap facesDataList duration title
    = Normal (card, heap')
    /\ skill_card_type card = "timeline"
    /\ card_entries heap' card = Some processed.
Proof.
  intros Hp. unfold createFacesCard. rewrite Hp. simpl.
  eexists _, _. split; [reflexivity|]. split; [reflexivity|].
  unfold card_entries. simpl. rewrite lookup_insert_eq. f_equal.
  apply assign_loop_undefined. apply dataURIs_undefined.
Qed.

End FacesCard.

(** C3.  An entry with an image URL whose image can be fetched, resized
    and encoded keeps its URL in the card [createFacesCard] returns: the
    callback reads [image_url] from the pairs of [Object.entries], so
    [jimp.read] is never given the URL and no data URI is written back. *)
Theorem createFacesCard_never_replaces_image_url
    (thumbnail : string -> option string) (this : SkillsWriterObj)
    (now : string) (heap : gmap ArrayRef (list Entry))
    (facesDataList : list Entry) (duration : option Q)
    (title : option string) (processed : list Entry) (i : nat) (e : Entry)
    (u uri : string) :
  processDataList facesDataList None = Normal processed ->
  processed !! i = Some e ->
  image_url e = JStr u ->
  thumbnail u = Some uri ->
  exists card heap' shown,
    createFacesCard thumbnail this now heap facesDataList duration title
    = Normal (card, heap')
    /\ card_entries heap' card = Some shown
    /\ exists e', shown !! i = Some e' /\ image_url e' = JStr u.
Proof.
  intros Hp Hi Hu _.
  destruct (createFacesCard_result thumbnail this now heap facesDataList
              duration title processed Hp) as (card & heap' & Hc & _ & He).
  exists card, heap', processed.
  split; [exact Hc|]. split; [exact He|]. by exists e.
Qed.

(** A fetchable image, and still the original URL in the card. *)
Lemma createFacesCard_never_replaces_image_url_witness :
  exists card heap' shown,
    createFacesCard (fun _ => Some "data:image/png;base64,iVBORw0KGgo=")
      Sample.writer Sample.now ∅
      [Sample.image_entry "Ada" "https://example.com/ada.png"] None None
    = Normal (card, heap')
    /\ card_entries heap' card = Some shown
    /\ exists e', shown !! 0%nat = Some e'
                  /\ image_url e' = JStr "https://example.com/ada.png".
Proof.
  apply (createFacesCard_never_replaces_image_url
           (fun _ => Some "data:image/png;base64,iVBORw0KGgo=")
           Sample.writer Sample.now ∅
           [Sample.image_entry "Ada" "https://example.com/ada.png"] None None
           [{| text := Some "Ada";
               image_url := JStr "https://example.com/ada.png";
               entry_type := Some "image"; appears := None |}]
           0%nat
           {| text := Some "Ada";
              image_url := JStr "https://example.com/ada.png";
              entry_type := Some "image"; appears := None |}
           "https://example.com/ada.png"
           "data:image/png;base64,iVBORw0KGgo=");
    reflexivity.
Defined.

(** C4.  For every input list and whatever the image operations do,
    [createFacesCard] returns a card and does not raise; the card shows
    exactly the processed entries: each of them is there, and an entry whose
    image could not be fetched or resized is there with its original image
    URL. *)
Theorem createFacesCard_tolerates_image_failures
    (thumbnail : string -> option string) (this : SkillsWriterObj)
    (now : string) (heap : gmap ArrayRef (list Entry))
    (facesDataList : list Entry) (duration : option Q)
    (title : option string) :
  exists processed card heap' shown,
    processDataList facesDataList None = Normal processed
    /\ createFacesCard thumbnail this now heap facesDataList duration title
       = Normal (card, heap')
    /\ card_entries heap' card = Some shown
    /\ length shown = length processed
    /\ (forall i e, processed !! i = Some e ->
        exists e', shown !! i = Some e'
                   /\ text e' = text e /\ entry_type e' = entry_type e)
    /\ (forall i e u, processed !! i = Some e -> image_url e = JStr u ->
        thumbnail u = None -> shown !! i = Some e).
Proof.
  destruct (processDataList_Normalised facesDataList) as (processed & Hp & _).
  destruct (createFacesCard_result thumbnail this now heap facesDataList
              duration title processed Hp) as (card & heap' & Hc & _ & He).
  exists processed, card, heap', processed.
  repeat split; try done.
  intros i e Hi. by exists e.
Qed.

(** One entry whose image cannot be fetched. *)
Lemma createFacesCard_tolerates_image_failures_witness :
  exists card heap' shown,
    createFacesCard (fun _ => None) Sample.writer Sample.now ∅
      [Sample.image_entry " Ada " "https://example.com/ada.png"] None None
    = Normal (card, heap')
    /\ card_entries heap' card = Some shown
    /\ shown !! 0%nat
       = Some {| text := Some "Ada";
                 image_url := JStr "https://example.com/ada.png";
                 entry_type := Some "image";
                 appears := None |}.
Proof.
  destruct (createFacesCard_tolerates_image_failures
              (fun _ => None) Sample.writer Sample.now ∅
              [Sample.image_entry " Ada " "https://example.com/ada.png"]
              None None)
    as (processed & card & heap' & shown & Hp & Hc & Hs & _ & _ & Hkeep).
  exists card, heap', shown.
  split; [exact Hc|]. split; [exact Hs|].
  apply (Hkeep 0%nat _ "https://example.com/ada.png").
  - vm_compute in Hp. injection Hp as <-. reflexivity.
  - reflexivity.
  - reflexivity.
Defined.

(* ===================================================================== *)
(** ** Further properties of the kit *)
(* ===================================================================== *)

(** The three tables of formats share no extension, so the order of the
    three lookups never decides a classification. *)
Theorem format_tables_disjoint :
  NoDup (boxAudioFormats ++ boxImageFormats ++ boxVideoFormats).
Proof.
  apply (bool_decide_unpack _). vm_compute. exact I.
Qed.

(** [validateSize] accepts a file exactly when its size in bytes is at most
    the limit in megabytes times 1048576, and raises the file-size error
    otherwise; a size equal to the limit is accepted. *)
Theorem validateSize_boundary (this : FilesReaderObj) (size : Z) (limit : Q) :
  fileSize this = Some size ->
  ((inject_Z size <= limit * 1048576)%Q ->
   validateSize this limit = Normal true)
  /\ (~ (inject_Z size <= limit * 1048576)%Q ->
      validateSize this limit = Throw (Error "skills_invalid_file_size_error")).
Proof.
  intros Hs. unfold validateSize. rewrite Hs.
  assert (Hiff : Qle_bool (inject_Z size / inject_Z MB_INTO_BYTES) limit = true
                 <-> (inject_Z size <= limit * 1048576)%Q).
  { rewrite Qle_bool_iff. unfold MB_INTO_BYTES, Qle. simpl. lia. }
  destruct (Qle_bool _ _).
  - split; [done|]. intros H. exfalso. apply H, Hiff. reflexivity.
  - split; [|done]. intros H. apply Hiff in H. discriminate.
Qed.

(** A file of exactly five megabytes under a limit of five. *)
Lemma validateSize_boundary_witness :
  validateSize (Sample.reader_of_size 5242880) 5 = Normal true.
Proof.
  apply (proj1 (validateSize_boundary (Sample.reader_of_size 5242880)
                  5242880 5 eq_refl)).
  vm_compute. discriminate.
Defined.

(** [validateFormat] returns true when the parsed format is in the allowed
    list and raises the file-format error otherwise. *)
Theorem validateFormat_allow_list (this : FilesReaderObj)
    (allowed : list string) :
  (In (fileFormat this) allowed -> validateFormat this allowed = Normal true)
  /\ (~ In (fileFormat this) allowed ->
      validateFormat this allowed
      = Throw (Error "skills_invalid_file_format_error")).
Proof.
  unfold validateFormat. split; intros H.
  - apply includes_str_In in H. by rewrite H.
  - apply includes_str_not_In in H. by rewrite H.
Qed.

(** The reader of the sample event against two allow-lists. *)
Lemma validateFormat_allow_list_witness :
  validateFormat Sample.reader ["wav"; "mp3"] = Normal true
  /\ validateFormat Sample.reader ["pdf"]
     = Throw (Error "skills_invalid_file_format_error").
Proof.
  split.
  - apply (proj1 (validateFormat_allow_list Sample.reader ["wav"; "mp3"])).
    simpl. tauto.
  - apply (proj2 (validateFormat_allow_list Sample.reader ["pdf"])).
    simpl. intuition discriminate.
Defined.

(** [saveProcessingCard] submits one status card whose status code is
    ["skills_pending_status"], with invocation status ["processing"] and no
    usage. *)
Theorem saveProcessingCard_body (this : SkillsWriterObj) (now : string) :
  let b := put_body (saveProcessingCard this now) in
  body_status b = JStr "processing"
  /\ body_usage b = None
  /\ exists card,
       body_metadata_cards b = [card]
       /\ skill_card_type card = "status"
       /\ code (status card) = JStr "skills_pending_status"
       /\ title_code (skill_card_title card) = "skills_status".
Proof.
  cbv zeta. split; [reflexivity|]. split; [reflexivity|].
  eexists. repeat split.
Qed.

(** A representation that is ready at the first look needs no polling:
    [getBasicFormatFileURL] resolves to the expanded template of that entry
    followed by the read token. *)
Theorem getBasicFormatFileURL_ready
    (urlTemplate_expand : string -> string -> string)
    (this : FilesReaderObj) (ft : FileTypeInfo) (entries : list RepInfo)
    (repInfo : RepInfo) (responses : list Response) :
  FileType.get (fileType this) = Some ft ->
  last entries = Some repInfo ->
  rep_state repInfo = "success" \/ rep_state repInfo = "viewable" ->
  getBasicFormatFileURL urlTemplate_expand this entries responses
  = ([GetRepresentationInfo (fileId this) (representationType ft)],
     Resolved (urlTemplate_expand (rep_url_template repInfo) ""
               +:+ "?access_token=" +:+ template_str (fileReadToken this))).
Proof.
  intros Hft Hl Hs. unfold getBasicFormatFileURL, getBasicFormatFileURLWith.
  rewrite Hft, Hl. destruct Hs as [Hs | Hs]; rewrite Hs; reflexivity.
Qed.

(** The sample reader and a viewable representation. *)
Lemma getBasicFormatFileURL_ready_witness :
  snd (getBasicFormatFileURL (fun t _ => t) Sample.reader
         [Sample.rep "viewable" "https://dl.boxcloud.example/mp3"] [])
  = Resolved "https://dl.boxcloud.example/mp3?access_token=read-token".
Proof.
  rewrite (getBasicFormatFileURL_ready (fun t _ => t) Sample.reader
             FileType.AUDIO
             [Sample.rep "viewable" "https://dl.boxcloud.example/mp3"]
             (Sample.rep "viewable" "https://dl.boxcloud.example/mp3") []).
  - reflexivity.
  - reflexivity.
  - reflexivity.
  - right. reflexivity.
Defined.

(** When the representation is in progress at the first look and the first
    polled answer is already terminal, no timer is needed and the module's
    code does what the specification says: [success] or [viewable] resolves
    to the URL built from that answer's template, [error] raises the
    file-processing error. *)
Theorem getBasicFormatFileURL_first_poll_terminal
    (urlTemplate_expand : string -> string -> string)
    (this : FilesReaderObj) (ft : FileTypeInfo) (repInfo : RepInfo)
    (response : Response) (rest : list Response) :
  FileType.get (fileType this) = Some ft ->
  in_progress (rep_state repInfo) ->
  (rep_state (body response) = "success"
   \/ rep_state (body response) = "viewable" ->
   snd (getBasicFormatFileURL urlTemplate_expand this [repInfo]
          (response :: rest))
   = Resolved (urlTemplate_expand (rep_url_template (body response)) ""
               +:+ "?access_token=" +:+ template_str (fileReadToken this)))
  /\ (rep_state (body response) = "error" ->
      snd (getBasicFormatFileURL urlTemplate_expand this [repInfo]
             (response :: rest))
      = Rejected (Error "skills_file_processing_error")).
Proof.
  intros Hft Hp. split.
  - intros Hs. unfold getBasicFormatFileURL, getBasicFormatFileURLWith.
    rewrite Hft. cbn [last].
    rewrite (poll_terminal Promise (rep_info_url repInfo) response rest)
      by (destruct Hs; [left | right; left]; done).
    destruct Hp as [Hp | Hp], Hs as [Hs | Hs]; rewrite Hp; simpl;
      rewrite Hs; reflexivity.
  - intros He.
    apply (getBasicFormatFileURL_error_after_poll urlTemplate_expand Promise
             this ft repInfo response rest Hft Hp He).
Qed.

(** Pending at the first look, viewable at the first poll. *)
Lemma getBasicFormatFileURL_first_poll_terminal_witness :
  snd (getBasicFormatFileURL (fun t _ => t) Sample.reader
         [Sample.rep "pending" "t0"]
         [Sample.answer "viewable" "https://dl.boxcloud.example/mp3"])
  = Resolved "https://dl.boxcloud.example/mp3?access_token=read-token".
Proof.
  apply (proj1 (getBasicFormatFileURL_first_poll_terminal
                  (fun t _ => t) Sample.reader FileType.AUDIO
                  (Sample.rep "pending" "t0")
                  (Sample.answer "viewable" "https://dl.boxcloud.example/mp3")
                  [] eq_refl (or_intror eq_refl))).
  right. reflexivity.
Defined.
(* ===================================================================== *)
(** ** Extensions *)
(* ===================================================================== *)

Section Extname.

Import Path.

Lemma list_ascii_app (a b : string) :
  list_ascii_of_string (a +:+ b)
  = (list_ascii_of_string a ++ list_ascii_of_string b)%list.
Proof.
  induction a as [|c a IH]; [reflexivity|].
  change (String c a +:+ b) with (String c (a +:+ b)).
  cbn [list_ascii_of_string]. rewrite IH. reflexivity.
Qed.

Lemma string_length_list (s : string) :
  String.length s = length (list_ascii_of_string s).
Proof. induction s as [|c s IH]; simpl; congruence. Qed.

Lemma occurs_Forall (c : ascii) (s : string) :
  occurs c s = false ->
  Forall (fun d => Ascii.eqb d c = false) (list_ascii_of_string s).
Proof.
  induction s as [|d s IH]; cbn [occurs list_ascii_of_string]; intros H.
  - constructor.
  - apply orb_false_iff in H as [Hd Hs]. constructor; [|by apply IH].
    by rewrite Ascii.eqb_sym.
Qed.

Lemma scan_first (c : ascii) (rest : list ascii) (i0 : Z) :
  not_dot_slash c ->
  scan (c :: rest) i0 scan0 = scan rest (i0 - 1) (seen_end i0).
Proof. intros [Hs Hd]. cbn [scan]. rewrite Hs, Hd. reflexivity. Qed.

Lemma scan_extension (l rest : list ascii) (i i0 : Z) :
  0 <= i0 ->
  Forall not_dot_slash l ->
  scan (l ++ rest) i (seen_end i0)
  = scan rest (i - Z.of_nat (length l)) (seen_end i0).
Proof.
  intros Hi0 Hl. revert i.
  induction Hl as [|c l [Hs Hd] Hl IH]; intros i.
  - cbn. f_equal. lia.
  - cbn [app scan]. rewrite Hs, Hd.
    assert (He : (endIdx (seen_end i0) =? -1) = false)
      by (apply Z.eqb_neq; cbn; lia).
    rewrite He. cbn [startDot seen_end Z.eqb negb].
    change (-1 =? -1) with true. cbn [negb].
    rewrite IH. f_equal. rewrite length_cons. lia.
Qed.

Lemma scan_dot (rest : list ascii) (j i0 : Z) :
  0 <= i0 ->
  scan ("."%char :: rest) j (seen_end i0)
  = scan rest (j - 1)
      {| startDot := j; startPart := 0; endIdx := i0 + 1;
         matchedSlash := false; preDotState := 0 |}.
Proof.
  intros Hi0. cbn [scan].
  change (Ascii.eqb "." "/") with false. change (Ascii.eqb "." ".") with true.
  assert (He : (endIdx (seen_end i0) =? -1) = false)
    by (apply Z.eqb_neq; cbn; lia).
  rewrite He. reflexivity.
Qed.

(** Once the dot is found and something other than a slash came before
    it, the rest of the path changes neither the dot nor the end. *)
Lemma scan_before_dot (rest : list ascii) (k : Z) (st : Scan) :
  startDot st <> -1 -> endIdx st <> -1 -> matchedSlash st = false ->
  preDotState st <> 0 ->
  startDot (scan rest k st) = startDot st
  /\ endIdx (scan rest k st) = endIdx st
  /\ preDotState (scan rest k st) <> 0.
Proof.
  revert k st. induction rest as [|c rest IH]; intros k st Hd He Hm Hp.
  - cbn. tauto.
  - cbn [scan]. destruct (Ascii.eqb c "/").
    + rewrite Hm. cbn. tauto.
    + apply Z.eqb_neq in He as He'. rewrite He'.
      apply Z.eqb_neq in Hd as Hd'. rewrite Hd'. cbn [negb].
      destruct (Ascii.eqb c ".").
      * destruct (preDotState st =? 1) eqn:H1; cbn [negb].
        -- apply IH; assumption.
        -- destruct (IH (k - 1)
                     {| startDot := startDot st; startPart := startPart st;
                        endIdx := endIdx st; matchedSlash := matchedSlash st;
                        preDotState := 1 |}) as (A & B & C); cbn; try done.
      * destruct (IH (k - 1)
                   {| startDot := startDot st; startPart := startPart st;
                      endIdx := endIdx st; matchedSlash := matchedSlash st;
                      preDotState := -1 |}) as (A & B & C); cbn; try done.
Qed.

Lemma scan_after_dot (c : ascii) (rest : list ascii) (k j i0 : Z) :
  0 <= j -> 0 <= i0 -> Ascii.eqb c "/" = false ->
  let st := scan (c :: rest) k
              {| startDot := j; startPart := 0; endIdx := i0 + 1;
                 matchedSlash := false; preDotState := 0 |} in
  startDot st = j /\ endIdx st = i0 + 1 /\ preDotState st <> 0.
Proof.
  intros Hj Hi0 Hs. cbv zeta. cbn [scan]. rewrite Hs.
  cbn [endIdx].
  assert (He : (i0 + 1 =? -1) = false) by (apply Z.eqb_neq; lia).
  assert (Hd : (j =? -1) = false) by (apply Z.eqb_neq; lia).
  rewrite He. cbn [startDot preDotState endIdx matchedSlash startPart].
  rewrite Hd. cbn [negb]. change (0 =? 1) with false. cbn [negb].
  destruct (Ascii.eqb c ".");
    match goal with
    | |- context [scan rest ?k ?st] =>
        destruct (scan_before_dot rest k st) as (A & B & C); cbn; try lia
    end; cbn in A, B; tauto.
Qed.

Lemma substring_skip (a b : string) (n : nat) :
  String.substring (String.length a) n (a +:+ b) = String.substring 0 n b.
Proof.
  induction a as [|c a IH]; [reflexivity|].
  change (String c a +:+ b) with (String c (a +:+ b)). cbn. exact IH.
Qed.

Lemma substring_prefix (a b : string) :
  String.substring 0 (String.length a) (a +:+ b) = a.
Proof.
  induction a as [|c a IH]; [by destruct b|].
  change (String c a +:+ b) with (String c (a +:+ b)). cbn. by rewrite IH.
Qed.

Lemma string_length_app (a b : string) :
  String.length (a +:+ b) = (String.length a + String.length b)%nat.
Proof.
  induction a as [|c a IH]; [reflexivity|].
  change (String c a +:+ b) with (String c (a +:+ b)). cbn. by rewrite IH.
Qed.

Lemma append_empty_r (a : string) : a +:+ "" = a.
Proof.
  induction a as [|c a IH]; [reflexivity|].
  change (String c a +:+ "") with (String c (a +:+ "")). by rewrite IH.
Qed.

(** [path.extname] on a name with a plain extension. *)
Lemma extname_extension (base ext : string) :
  ends_in_name base -> plain_extension ext ->
  extname (base +:+ "." +:+ ext) = "." +:+ ext.
Proof.
  intros (b & c & -> & Hc) (Hne & Hdot & Hsl).
  set (path := (b +:+ String c "") +:+ "." +:+ ext).
  assert (Hlen : Z.of_nat (String.length path)
                 = Z.of_nat (String.length b) + 2
                   + Z.of_nat (String.length ext)).
  { unfold path. rewrite !string_length_app. cbn [String.length]. lia. }
  assert (Hle : (0 < String.length ext)%nat).
  { destruct ext; [done | cbn; lia]. }
  assert (Hchars :
    rev (list_ascii_of_string path)
    = (rev (list_ascii_of_string ext)
         ++ "."%char :: c :: rev (list_ascii_of_string b))%list).
  { unfold path. rewrite !list_ascii_app.
    cbn [list_ascii_of_string].
    rewrite !rev_app_distr. cbn [rev app]. rewrite <- !app_assoc.
    reflexivity. }
  assert (Hext : Forall not_dot_slash (rev (list_ascii_of_string ext))).
  { apply Forall_rev. apply occurs_Forall in Hdot, Hsl.
    rewrite Forall_forall in *. intros x Hx. split; auto. }
  unfold extname. fold path. rewrite Hchars.
  set (i0 := Z.of_nat (String.length path) - 1).
  assert (Hi0 : 0 <= i0) by lia.
  destruct (rev (list_ascii_of_string ext)) as [|e0 l] eqn:Hrev.
  { apply (f_equal (@length ascii)) in Hrev. rewrite length_rev in Hrev.
    rewrite <- string_length_list in Hrev. cbn in Hrev. lia. }
  apply Forall_cons in Hext as [He0 Hl].
  cbn [app]. rewrite (scan_first e0 _ i0 He0).
  rewrite (scan_extension l _ (i0 - 1) i0 Hi0 Hl).
  rewrite (scan_dot _ _ i0 Hi0).
  assert (Hll : Z.of_nat (length l) = Z.of_nat (String.length ext) - 1).
  { apply (f_equal (@length ascii)) in Hrev. rewrite length_rev in Hrev.
    rewrite <- string_length_list in Hrev. cbn in Hrev. lia. }
  set (j := i0 - 1 - Z.of_nat (length l)).
  assert (Hj : j = Z.of_nat (String.length b) + 1) by lia.
  assert (Hcs : Ascii.eqb c "/" = false) by (by apply Ascii.eqb_neq).
  destruct (scan_after_dot c (rev (list_ascii_of_string b)) (j - 1) j i0)
    as (Hsd & Hen & Hpre); [lia | lia | exact Hcs |].
  rewrite Hsd, Hen.
  assert (H1 : (j =? -1) = false) by (apply Z.eqb_neq; lia).
  assert (H2 : (i0 + 1 =? -1) = false) by (apply Z.eqb_neq; lia).
  assert (H3 : (j =? i0 + 1 - 1) = false) by (apply Z.eqb_neq; lia).
  apply Z.eqb_neq in Hpre. rewrite H1, H2, Hpre, H3.
  rewrite andb_false_r. cbn [orb andb].
  unfold slice.
  replace (Z.to_nat j) with (String.length (b +:+ String c "")).
  2:{ rewrite string_length_app. cbn. lia. }
  replace (Z.to_nat (i0 + 1 - j)) with (String.length ("." +:+ ext)).
  2:{ change ("." +:+ ext) with (String "." ext). cbn [String.length]. lia. }
  unfold path. rewrite substring_skip.
  rewrite <- (append_empty_r ("." +:+ ext)) at 2.
  apply substring_prefix.
Qed.

End Extname.

Section Formats.

Lemma lower_char_dot (c : ascii) :
  Ascii.eqb (lower_char c) "." = Ascii.eqb c ".".
Proof. destruct c as [[] [] [] [] [] [] [] []]; reflexivity. Qed.

Lemma lower_char_idem (c : ascii) : lower_char (lower_char c) = lower_char c.
Proof. destruct c as [[] [] [] [] [] [] [] []]; reflexivity. Qed.

Lemma toLowerCase_idem (s : string) :
  toLowerCase (toLowerCase s) = toLowerCase s.
Proof.
  induction s as [|c s IH]; [reflexivity|].
  cbn [toLowerCase]. by rewrite lower_char_idem, IH.
Qed.

Lemma trimStart_lowercase (s chars : string) :
  toLowerCase s = s -> toLowerCase (trimStart s chars) = trimStart s chars.
Proof.
  induction s as [|c s IH]; [done|]. cbn [toLowerCase trimStart].
  intros [= Hc Hs]. destruct (occurs c chars).
  - by apply IH.
  - cbn [toLowerCase]. by rewrite Hc, Hs.
Qed.

Lemma trimStart_no_leading (s chars : string) (c : ascii) (r : string) :
  trimStart s chars = String c r -> occurs c chars = false.
Proof.
  induction s as [|d s IH]; [done|]. cbn [trimStart].
  destruct (occurs d chars) eqn:Hd; [exact IH|].
  intros [= <- _]. exact Hd.
Qed.

Lemma scan_no_dot (chars : list ascii) (i : Z) (st : Path.Scan) :
  Forall (fun c => Ascii.eqb c "." = false) chars ->
  Path.startDot st = -1 ->
  Path.startDot (Path.scan chars i st) = -1.
Proof.
  intros Hc. revert i st.
  induction Hc as [|c l Hc Hl IH]; intros i st Hst; [exact Hst|].
  cbn [Path.scan]. rewrite Hc.
  destruct (Ascii.eqb c "/").
  - destruct (negb (Path.matchedSlash st)); [exact Hst | by apply IH].
  - destruct (Path.endIdx st =? -1); cbn [Path.startDot]; rewrite Hst;
      cbn; by apply IH.
Qed.

End Formats.

(** A name that ends in [.ext], where [ext] is not empty and holds neither
    a dot nor a slash and the dot follows a character that is no slash, has
    the lowercased [ext] as its file format. *)
Theorem getFileFormat_extension (base ext : string) :
  ends_in_name base -> plain_extension ext ->
  getFileFormat (base +:+ "." +:+ ext) = toLowerCase ext.
Proof.
  intros Hb He. unfold getFileFormat.
  rewrite (extname_extension base ext Hb He).
  destruct He as (Hne & Hdot & _).
  destruct ext as [|e r]; [done|].
  change ("." +:+ String e r) with (String "." (String e r)).
  cbn [toLowerCase occurs] in *.
  change (lower_char ".") with "."%char.
  cbn [trimStart occurs]. change (Ascii.eqb "." ".") with true.
  cbn [orb]. apply orb_false_iff in Hdot as [Hd _].
  rewrite orb_false_r, lower_char_dot, Ascii.eqb_sym, Hd. reflexivity.
Qed.

(** A photo in a dotted directory. *)
Lemma getFileFormat_extension_witness :
  getFileFormat ("shots.v2/Holiday Photo" +:+ "." +:+ "JPG") = "jpg".
Proof.
  apply (getFileFormat_extension "shots.v2/Holiday Photo" "JPG").
  - exists "shots.v2/Holiday Phot", "o"%char. split; [reflexivity | discriminate].
  - repeat split. discriminate.
Defined.

(** A name without any dot has the empty format and is a DOCUMENT. *)
Theorem getFileFormat_without_dot (fileName : string) :
  occurs "." fileName = false ->
  getFileFormat fileName = "" /\ getFileType (getFileFormat fileName) = "DOCUMENT".
Proof.
  intros H.
  assert (He : Path.extname fileName = "").
  { unfold Path.extname.
    rewrite (scan_no_dot (rev (list_ascii_of_string fileName))
               (Z.of_nat (String.length fileName) - 1) Path.scan0).
    - reflexivity.
    - apply Forall_rev. by apply occurs_Forall.
    - reflexivity. }
  unfold getFileFormat. rewrite He. split; reflexivity.
Qed.

(** A file called [Makefile] in a directory. *)
Lemma getFileFormat_without_dot_witness :
  getFileType (getFileFormat "build/Makefile") = "DOCUMENT".
Proof.
  apply (getFileFormat_without_dot "build/Makefile"). reflexivity.
Defined.

(** Whatever the name, the file format is in lower case and does not start
    with a dot. *)
Lemma getFileFormat_normal_form (fileName : string) :
  toLowerCase (getFileFormat fileName) = getFileFormat fileName
  /\ forall r, getFileFormat fileName <> String "." r.
Proof.
  unfold getFileFormat. split.
  - apply trimStart_lowercase, toLowerCase_idem.
  - intros r Hr. apply trimStart_no_leading in Hr. discriminate Hr.
Qed.

Lemma FilesReader_establishes (ev : EventBody) (r : FilesReaderObj) :
  FilesReader ev = Normal r ->
  (exists n, fileName r = Some n /\ fileFormat r = getFileFormat n)
  /\ fileType r = getFileType (fileFormat r)
  /\ (exists ft, FileType.get (fileType r) = Some ft /\ name ft = fileType r)
  /\ fileDownloadURL r
     = "https://api.box.com/2.0/files/" +:+ template_str (fileId r)
       +:+ "/content?access_token=" +:+ template_str (fileReadToken r)
  /\ client_token (fileReadClient r) = fileReadToken r.
Proof.
  destruct ev as [rid sk so tk]. unfold FilesReader.
  cbn [event_id event_skill event_source event_token].
  destruct sk as [[[sid|]]|]; try discriminate.
  destruct so as [[soid [n|] sz]|]; try discriminate.
  destruct tk as [[[rd|] [wr|]]|]; try discriminate.
  cbn. intros [= <-]. cbn.
  repeat split.
  - by exists n.
  - unfold getFileType.
    destruct (includes_str boxAudioFormats _); [by eexists|].
    destruct (includes_str boxImageFormats _); [by eexists|].
    destruct (includes_str boxVideoFormats _); by eexists.
Qed.

(** What the constructor establishes: the format is that of the source
    name, in lower case and without a leading dot; the type is the
    classification of the format and names an entry of the table of
    representation types; the download URL is built from the file id and
    the read token; the read client holds the read token. *)
Theorem FilesReader_invariant (ev : EventBody) (r : FilesReaderObj) :
  FilesReader ev = Normal r ->
  (exists n, fileName r = Some n /\ fileFormat r = getFileFormat n)
  /\ toLowerCase (fileFormat r) = fileFormat r
  /\ (forall t, fileFormat r <> String "." t)
  /\ fileType r = getFileType (fileFormat r)
  /\ (exists ft, FileType.get (fileType r) = Some ft /\ name ft = fileType r)
  /\ fileDownloadURL r
     = "https://api.box.com/2.0/files/" +:+ template_str (fileId r)
       +:+ "/content?access_token=" +:+ template_str (fileReadToken r)
  /\ client_token (fileReadClient r) = fileReadToken r.
Proof.
  intros Hr.
  destruct (FilesReader_establishes ev r Hr)
    as ((n & Hn & Hf) & Ht & Hft & Hu & Hc).
  destruct (getFileFormat_normal_form n) as [Hl Hd].
  split; [by exists n|].
  split; [by rewrite Hf|].
  split; [intros t; by rewrite Hf|].
  tauto.
Qed.

(** The reader of the sample event. *)
Lemma FilesReader_invariant_witness :
  fileType Sample.reader = getFileType (fileFormat Sample.reader)
  /\ FileType.get (fileType Sample.reader) = Some FileType.AUDIO.
Proof.
  destruct (FilesReader_invariant Sample.full_event Sample.reader eq_refl)
    as (_ & _ & _ & Ht & _).
  split; [exact Ht | reflexivity].
Defined.

(** An allow-list whose entries are not in the form of a file format (an
    upper-case letter, a leading dot) accepts no file. *)
Theorem validateFormat_needs_normal_form (ev : EventBody)
    (r : FilesReaderObj) (allowed : list string) :
  FilesReader ev = Normal r ->
  Forall (fun f => toLowerCase f <> f \/ exists t, f = String "." t) allowed ->
  validateFormat r allowed = Throw (Error "skills_invalid_file_format_error").
Proof.
  intros Hr Ha.
  destruct (FilesReader_establishes ev r Hr) as ((n & _ & Hf) & _).
  unfold validateFormat.
  destruct (includes_str allowed (fileFormat r)) eqn:Hin; [|reflexivity].
  apply includes_str_In in Hin.
  rewrite Forall_forall in Ha. apply list_elem_of_In in Hin.
  destruct (getFileFormat_normal_form n) as [Hl Hd].
  destruct (Ha _ Hin) as [H | [t H]].
  - exfalso. apply H. rewrite Hf. exact Hl.
  - exfalso. apply (Hd t). congruence.
Qed.

(** The sample reader against [".mp3"] and ["MP3"]. *)
Lemma validateFormat_needs_normal_form_witness :
  validateFormat Sample.reader [".mp3"; "MP3"]
  = Throw (Error "skills_invalid_file_format_error").
Proof.
  apply (validateFormat_needs_normal_form Sample.full_event Sample.reader
           [".mp3"; "MP3"] eq_refl).
  constructor; [right; by eexists|].
  constructor; [left; discriminate | constructor].
Defined.

(* ===================================================================== *)
(** ** More on data lists and cards *)
(* ===================================================================== *)

Section DataLists.

Lemma trimLeft_fixed (s : string) : starts_nonspace s -> trimLeft s = s.
Proof. destruct s as [|c r]; [done|]. simpl. by intros ->. Qed.

Lemma trimRight_fixed (s : string) : ends_nonspace s -> trimRight s = s.
Proof.
  induction s as [|c r IH]; [done|]. cbn [ends_nonspace trimRight].
  destruct r as [|d r'].
  - intros ->. reflexivity.
  - intros H. rewrite (IH H). reflexivity.
Qed.

Lemma trim_idem (t : string) : trim (trim t) = trim t.
Proof.
  destruct (trim_trimmed_of t) as (l & r & _ & _ & _ & Hs & He).
  unfold trim at 1. rewrite (trimLeft_fixed _ Hs). by apply trimRight_fixed.
Qed.

Lemma processData_settled (e e' : Entry) :
  has_text e = true -> processData None e = Normal e' -> settled_entry e'.
Proof.
  intros H. apply has_text_true_iff in H as (t & Ht & Hn).
  unfold processData. cbn. rewrite Ht. cbn. intros [= <-].
  split.
  - apply has_text_true_iff. exists (trim t). split; [reflexivity|].
    rewrite <- trim_empty_iff, trim_idem, trim_empty_iff. exact Hn.
  - unfold processData. cbn. rewrite trim_idem. reflexivity.
Qed.

Lemma processDataList_settled (l out : list Entry) :
  processDataList l None = Normal out -> Forall settled_entry out.
Proof.
  unfold processDataList. revert out.
  induction l as [|e l IH]; intros out; cbn [List.filter mapM].
  - intros [= <-]. constructor.
  - destruct (has_text e) eqn:He; [|apply IH].
    cbn [mapM]. destruct (processData None e) as [e'|] eqn:Hp; [|discriminate].
    cbn. destruct (mapM (processData None) (List.filter has_text l))
      as [out'|] eqn:Hm; [|discriminate].
    cbn. intros [= <-]. constructor.
    + by apply (processData_settled e).
    + by apply IH.
Qed.

Lemma processDataList_of_settled (out : list Entry) :
  Forall settled_entry out -> processDataList out None = Normal out.
Proof.
  unfold processDataList. induction 1 as [|e l [He Hp] Hl IH]; [reflexivity|].
  cbn [List.filter]. rewrite He. cbn [mapM]. rewrite Hp. cbn.
  rewrite IH. reflexivity.
Qed.

Lemma mapM_with_appears (d : option Q) (l : list Entry) :
  Forall (fun e => appears e <> None) l ->
  mapM (processData d) l = mapM (processData None) l.
Proof.
  induction 1 as [|e l He Hl IH]; [reflexivity|].
  cbn [mapM]. rewrite IH.
  assert (Hp : processData d e = processData None e).
  { unfold processData. destruct (truthy_num d); [|reflexivity].
    destruct (appears e); [reflexivity | done]. }
  by rewrite Hp.
Qed.

Lemma mapM_missing_appears (d : option Q) (l : list Entry) :
  truthy_num d = true ->
  Forall (fun e => has_text e = true) l ->
  Exists (fun e => appears e = None) l ->
  mapM (processData d) l = Throw missing_appears.
Proof.
  intros Hd Ht Hex. induction Ht as [|e l He Hl IH]; [by inversion Hex|].
  cbn [mapM].
  apply has_text_true_iff in He as (t & Htx & _).
  destruct (appears e) as [a|] eqn:Ha.
  - assert (Hrest : Exists (fun e => appears e = None) l).
    { inversion Hex as [? ? H0|]; subst; [congruence | done]. }
    rewrite (IH Hrest). unfold processData. rewrite Hd, Ha, Htx. reflexivity.
  - unfold processData. rewrite Hd, Ha. reflexivity.
Qed.

End DataLists.

(** [processDataList] is idempotent: its output, processed again, comes
    back as it is. *)
Theorem processDataList_idempotent (dataList out : list Entry) :
  processDataList dataList None = Normal out ->
  processDataList out None = Normal out.
Proof.
  intros H. by apply processDataList_of_settled, (processDataList_settled dataList).
Qed.

(** Processing twice the sample list of three texts. *)
Lemma processDataList_idempotent_witness :
  processDataList
    [{| text := Some "a"; image_url := JUndefined;
        entry_type := Some "text"; appears := None |}] None
  = Normal [{| text := Some "a"; image_url := JUndefined;
               entry_type := Some "text"; appears := None |}].
Proof.
  apply (processDataList_idempotent
           [Sample.text_entry " a "; Sample.text_entry "";
            Sample.text_entry "  "]).
  reflexivity.
Defined.

(** With a non-zero duration [processDataList] reads [appears.length] of
    every entry it keeps whose [appears] is no array: when every kept entry
    has its [appears] the result is that without a duration, and when a
    kept entry lacks the field the call throws a [TypeError]; the entries
    it drops are never looked at. *)
Theorem processDataList_with_duration (dataList : list Entry) (d : Q) :
  ~ Qeq d 0 ->
  (Forall (fun e => has_text e = true -> appears e <> None) dataList ->
   processDataList dataList (Some d) = processDataList dataList None)
  /\ (Exists (fun e => has_text e = true /\ appears e = None) dataList ->
      processDataList dataList (Some d)
      = Throw (TypeError
                 "Cannot read properties of undefined (reading 'length')")).
Proof.
  intros Hd.
  assert (Ht : truthy_num (Some d) = true).
  { cbn. apply negb_true_iff. destruct (Qeq_bool d 0) eqn:H; [|done].
    apply Qeq_bool_iff in H. done. }
  unfold processDataList. split; intros H.
  - apply mapM_with_appears.
    rewrite Forall_forall in H. apply Forall_forall. intros e He.
    apply list_elem_of_In, filter_In in He as [Hin Hte].
    apply H; [by apply list_elem_of_In | exact Hte].
  - apply (mapM_missing_appears _ _ Ht).
    + apply Forall_forall. intros e He.
      by apply list_elem_of_In, filter_In in He as [_ ?].
    + apply Exists_exists in H as (e & Hin & Hte & Ha).
      apply Exists_exists. exists e. split; [|exact Ha].
      apply list_elem_of_In, filter_In. split; [|exact Hte].
      by apply list_elem_of_In.
Qed.

(** A five-second clip: a blank entry without [appears] is harmless, a
    kept one is not. *)
Lemma processDataList_with_duration_witness :
  processDataList
    [{| text := Some "intro"; image_url := JUndefined; entry_type := None;
        appears := Some [(1, 2)%Q] |}; Sample.text_entry "  "] (Some 5%Q)
  = processDataList
      [{| text := Some "intro"; image_url := JUndefined; entry_type := None;
          appears := Some [(1, 2)%Q] |}; Sample.text_entry "  "] None
  /\ processDataList [Sample.text_entry "intro"] (Some 5%Q)
     = Throw (TypeError
                "Cannot read properties of undefined (reading 'length')").
Proof.
  split.
  - apply (proj1 (processDataList_with_duration _ 5%Q ltac:(discriminate))).
    constructor; [discriminate|]. constructor; [discriminate | constructor].
  - apply (proj2 (processDataList_with_duration _ 5%Q ltac:(discriminate))).
    constructor. split; reflexivity.
Defined.

Section CardBuilders.

Lemma alloc_fresh (heap : gmap ArrayRef (list Entry)) (a : list Entry) :
  heap !! (alloc heap a).1 = None
  /\ (alloc heap a).2 !! (alloc heap a).1 = Some a
  /\ extends heap (alloc heap a).2.
Proof.
  unfold alloc. cbn [fst snd].
  assert (Hf : heap !! fresh (dom heap) = None).
  { apply not_elem_of_dom. apply is_fresh. }
  split; [exact Hf|]. split; [apply lookup_insert_eq|].
  intros r b Hr. rewrite lookup_insert_ne; [exact Hr|].
  intros <-. congruence.
Qed.

Lemma extends_insert (heap heap' : gmap ArrayRef (list Entry)) r a :
  extends heap heap' -> heap !! r = None -> extends heap (<[r := a]> heap').
Proof.
  intros He Hr r' b Hb. rewrite lookup_insert_ne; [by apply He|].
  intros <-. congruence.
Qed.

Lemma title_or_spec (t : option string) (fallback : string) :
  (forall s, t = Some s -> s <> "" -> title_or t fallback = s)
  /\ (t = None \/ t = Some "" -> title_or t fallback = fallback).
Proof.
  unfold title_or. split.
  - intros s -> Hs. apply truthy_str_true_iff in Hs. by rewrite Hs.
  - by intros [-> | ->].
Qed.

End CardBuilders.

(** [createTopicsCard] and [createTranscriptsCard] never raise: for every
    list they return a card of subtype ["keyword"], respectively
    ["transcript"], with the empty status object, titled as asked, or
    ["Topics"], respectively ["Transcript"], when no title or the empty
    one is given; the card shows the list with its blank entries dropped
    and the others normalised. *)
Theorem createTopicsCard_and_createTranscriptsCard
    (this : SkillsWriterObj) (now : string)
    (heap : gmap ArrayRef (list Entry)) (dataList : list Entry)
    (duration : option Q) (title : option string) :
  (exists card heap' out,
     createTopicsCard this now heap dataList duration title
     = Normal (card, heap')
     /\ skill_card_type card = "keyword"
     /\ status card = {| code := JUndefined; message := None |}
     /\ title_message (skill_card_title card) = title_or title "Topics"
     /\ card_entries heap' card = Some out /\ Normalised dataList out)
  /\ (exists card heap' out,
        createTranscriptsCard this now heap dataList duration title
        = Normal (card, heap')
        /\ skill_card_type card = "transcript"
        /\ status card = {| code := JUndefined; message := None |}
        /\ title_message (skill_card_title card) = title_or title "Transcript"
        /\ card_entries heap' card = Some out /\ Normalised dataList out)
  /\ (forall s, title = Some s -> s <> "" -> title_or title "Topics" = s)
  /\ (title = None \/ title = Some "" ->
      title_or title "Topics" = "Topics"
      /\ title_or title "Transcript" = "Transcript").
Proof.
  destruct (processDataList_Normalised dataList) as (out & Hout & HN).
  destruct (alloc_fresh heap out) as (_ & Hl & _).
  split; [|split; [|split]].
  - unfold createTopicsCard. rewrite Hout. cbn [cbind].
    destruct (alloc heap out) as [r heap1] eqn:Ha. cbn [fst snd] in Hl.
    eexists _, _, out. split; [reflexivity|]. repeat split; try done.
  - unfold createTranscriptsCard. rewrite Hout. cbn [cbind].
    destruct (alloc heap out) as [r heap1] eqn:Ha. cbn [fst snd] in Hl.
    eexists _, _, out. split; [reflexivity|]. repeat split; try done.
  - apply title_or_spec.
  - intros H. split; by apply title_or_spec.
Qed.

(** Two topics under an empty title. *)
Lemma createTopicsCard_and_createTranscriptsCard_witness :
  title_or (Some "") "Topics" = "Topics"
  /\ title_or (Some "Keywords") "Topics" = "Keywords".
Proof.
  destruct (createTopicsCard_and_createTranscriptsCard
              Sample.writer Sample.now ∅ [Sample.text_entry "box"]
              None (Some "")) as (_ & _ & _ & H).
  destruct (createTopicsCard_and_createTranscriptsCard
              Sample.writer Sample.now ∅ [Sample.text_entry "box"]
              None (Some "Keywords")) as (_ & _ & H' & _).
  split.
  - apply H. right. reflexivity.
  - apply H'; [reflexivity | discriminate].
Defined.

(** Every card builder puts its entries into an array of its own: the
    card's reference is new, and the arrays of the cards built before keep
    their content (the in-place updates of [createFacesCard] included), so a
    card built earlier still shows the entries it showed. *)
Theorem card_builders_allocate_fresh
    (thumbnail : string -> option string) (this : SkillsWriterObj)
    (now : string) (heap heap' : gmap ArrayRef (list Entry))
    (dataList : list Entry) (duration : option Q) (title : option string)
    (card earlier : Card) :
  createTopicsCard this now heap dataList duration title = Normal (card, heap')
  \/ createTranscriptsCard this now heap dataList duration title
     = Normal (card, heap')
  \/ createFacesCard thumbnail this now heap dataList duration title
     = Normal (card, heap') ->
  (exists r, entries card = Some r /\ heap !! r = None)
  /\ extends heap heap'
  /\ (forall shown, card_entries heap earlier = Some shown ->
      card_entries heap' earlier = Some shown).
Proof.
  intros H.
  assert (Hmain : (exists r, entries card = Some r /\ heap !! r = None)
                  /\ extends heap heap').
  { destruct (processDataList_Normalised dataList) as (out & Hout & _).
    destruct (alloc_fresh heap out) as (Hf & _ & He).
    unfold createTopicsCard, createTranscriptsCard, createFacesCard in H.
    rewrite Hout in H. cbn [cbind] in H.
    destruct (alloc heap out) as [r heap1] eqn:Ha. cbn [fst snd] in Hf, He.
    destruct H as [H | [H | H]]; injection H as <- <-.
    - split; [by exists r | exact He].
    - split; [by exists r | exact He].
    - split; [by exists r | by apply extends_insert]. }
  destruct Hmain as [Hr He]. split; [exact Hr|]. split; [exact He|].
  unfold card_entries. destruct (entries earlier) as [r0|]; [|done].
  intros shown. apply He.
Qed.

(** A topics card, then a faces card: the topics are still there. *)
Lemma card_builders_allocate_fresh_witness :
  exists topics heap1 faces heap2,
    createTopicsCard Sample.writer Sample.now ∅ [Sample.text_entry "box"]
      None None = Normal (topics, heap1)
    /\ createFacesCard (fun _ => None) Sample.writer Sample.now heap1
         [Sample.image_entry "Ada" "https://example.com/ada.png"] None None
       = Normal (faces, heap2)
    /\ card_entries heap2 topics = card_entries heap1 topics
    /\ card_entries heap1 topics
       = Some [{| text := Some "box"; image_url := JUndefined;
                  entry_type := Some "text"; appears := None |}].
Proof.
  destruct (createTopicsCard Sample.writer Sample.now ∅
              [Sample.text_entry "box"] None None)
    as [[topics heap1]|] eqn:Ht; [|discriminate Ht].
  destruct (createFacesCard (fun _ => None) Sample.writer Sample.now heap1
              [Sample.image_entry "Ada" "https://example.com/ada.png"]
              None None) as [[faces heap2]|] eqn:Hf; [|discriminate Hf].
  exists topics, heap1, faces, heap2.
  split; [reflexivity|]. split; [exact Hf|].
  assert (Hshown : card_entries heap1 topics
                   = Some [{| text := Some "box"; image_url := JUndefined;
                              entry_type := Some "text"; appears := None |}]).
  { vm_compute in Ht. injection Ht as <- <-. vm_compute. reflexivity. }
  split; [|exact Hshown].
  rewrite Hshown.
  apply (card_builders_allocate_fresh (fun _ => None) Sample.writer Sample.now
           heap1 heap2
           [Sample.image_entry "Ada" "https://example.com/ada.png"] None None
           faces topics (or_intror (or_intror Hf))).
  exact Hshown.
Defined.

Section TitleCodeSpaces.

Lemma replace_without_space (s : string) :
  no_space s -> replace " " "_" s = s.
Proof.
  unfold no_space. induction s as [|c s IH]; [reflexivity|].
  cbn [occurs]. intros H. apply orb_false_iff in H as [Hc Hs].
  rewrite replace_space_skip by (by rewrite Ascii.eqb_sym).
  by rewrite IH.
Qed.

Lemma no_space_app (a b : string) :
  no_space a -> no_space b -> no_space (a +:+ b).
Proof.
  unfold no_space. intros Ha Hb. induction a as [|c a IH]; [exact Hb|].
  change (String c a +:+ b) with (String c (a +:+ b)).
  cbn [occurs] in *. apply orb_false_iff in Ha as [Hc Ha].
  rewrite Hc. by apply IH.
Qed.

End TitleCodeSpaces.

(** A title with at most one space gets a code without any space: the
    lowercased title behind ["skills_"], its space, if it has one, replaced
    by an underscore. *)
Theorem createMetadataCard_title_code_without_space
    (this : SkillsWriterObj) (now : string) (type : string)
    (st : option StatusObj) (en : option ArrayRef) (du : option Q)
    (title : string) :
  no_space title
  \/ (exists a b, title = a +:+ " " +:+ b /\ no_space a /\ no_space b) ->
  no_space
    (title_code
       (skill_card_title (createMetadataCard this now type title st en du)))
  /\ (no_space title ->
      title_code
        (skill_card_title (createMetadataCard this now type title st en du))
      = "skills_" +:+ toLowerCase title).
Proof.
  cbn [createMetadataCard skill_card_title title_code].
  assert (Hnone : no_space title ->
                  titleCode title = "skills_" +:+ toLowerCase title).
  { intros H. unfold titleCode. apply replace_without_space.
    apply (no_space_app "skills_"); [reflexivity|].
    by apply no_space_toLowerCase. }
  intros [H | (a & b & -> & Ha & Hb)]; (split; [|exact Hnone]).
  - rewrite (Hnone H). apply (no_space_app "skills_"); [reflexivity|].
    by apply no_space_toLowerCase.
  - rewrite (titleCode_first_space a b Ha).
    apply (no_space_app "skills_"); [reflexivity|].
    apply no_space_app; [by apply no_space_toLowerCase|].
    apply (no_space_app "_"); [reflexivity|].
    by apply no_space_toLowerCase.
Qed.

(** The title ["Face Tags"]. *)
Lemma createMetadataCard_title_code_without_space_witness :
  no_space
    (title_code
       (skill_card_title
          (createMetadataCard Sample.writer Sample.now "timeline" "Face Tags"
             None None None))).
Proof.
  apply (createMetadataCard_title_code_without_space
           Sample.writer Sample.now "timeline" None None None "Face Tags").
  right. exists "Face", "Tags". repeat split.
Defined.

(* ===================================================================== *)
(** ** From the event to the requests *)
(* ===================================================================== *)

Section Requests.


Lemma FilesReader_copies (ev : EventBody) (r : FilesReaderObj) :
  FilesReader ev = Normal r ->
  requestId r = event_id ev
  /\ Some (skillId r) = the_skill_id ev
  /\ fileId r = the_source_id ev
  /\ fileReadToken r = the_read_token ev
  /\ fileWriteToken r = the_write_token ev.
Proof.
  destruct ev as [rid sk so tk]. unfold FilesReader.
  unfold the_skill_id, the_source_id, the_read_token, the_write_token.
  cbn [event_id event_skill event_source event_token].
  destruct sk as [[[sid|]]|]; try discriminate.
  destruct so as [[soid [n|] sz]|]; try discriminate.
  destruct tk as [[[rd|] [wr|]]|]; try discriminate.
  cbn. intros [= <-]. cbn. repeat split.
Qed.

Lemma submitted_request (this : SkillsWriterObj) (request : PutRequest) :
  submitted_by this request ->
  put_client request = fileWriteClient this
  /\ put_path request = urlPath "/skill_invocations" (w_skillId this)
  /\ body_file (put_body request)
     = {| file_type := "file"; file_id := w_fileId this |}
  /\ put_headers request
     = [("Cache-Control", "no-cache"); ("Content-Type", "application/json")].
Proof.
  intros [(cards & st & usage & ->)
         | [(now & error & msg & ft & ->) | (now & ->)]];
    repeat split.
Qed.

End Requests.

(** Whatever a writer built on a reader submits, be it data cards, an error
    card or the processing card, it is a PUT to
    [urlPath("/skill_invocations", id)] for the skill id of the event, sent
    with the client of the event's write token (not the read token's), about
    the file of the event's source id, with the no-cache and JSON headers. *)
Theorem writer_requests_follow_the_event (ev : EventBody)
    (r : FilesReaderObj) (request : PutRequest) :
  FilesReader ev = Normal r ->
  submitted_by (SkillsWriter r) request ->
  client_token (put_client request) = the_write_token ev
  /\ path_base (put_path request) = "/skill_invocations"
  /\ Some (path_segment (put_path request)) = the_skill_id ev
  /\ body_file (put_body request)
     = {| file_type := "file"; file_id := the_source_id ev |}
  /\ put_headers request
     = [("Cache-Control", "no-cache"); ("Content-Type", "application/json")].
Proof.
  intros Hr Hs.
  destruct (FilesReader_copies ev r Hr) as (_ & Hsk & Hid & _ & Hw).
  destruct (submitted_request _ _ Hs) as (Hc & Hp & Hf & Hh).
  rewrite Hc, Hp, Hf, Hh. cbn. rewrite Hw, Hid. repeat split. exact Hsk.
Qed.

(** The error card of the sample event. *)
Lemma writer_requests_follow_the_event_witness :
  client_token
    (put_client
       (saveErrorCard (SkillsWriter Sample.reader) Sample.now
          (JStr "skills_billing_error") None JUndefined))
  = Some "write-token".
Proof.
  apply (writer_requests_follow_the_event Sample.full_event Sample.reader
           _ eq_refl).
  right. left. by eexists _, _, _, _.
Defined.

(* ===================================================================== *)
(** ** More on the basic-format URL *)
(* ===================================================================== *)

(** Of the entries [getRepresentationInfo] answers with, the last one alone
    decides what [getBasicFormatFileURL] does. *)
Theorem getBasicFormatFileURL_last_entry_only
    (urlTemplate_expand : string -> string -> string)
    (this : FilesReaderObj) (before : list RepInfo) (repInfo : RepInfo)
    (responses : list Response) :
  getBasicFormatFileURL urlTemplate_expand this (before ++ [repInfo]) responses
  = getBasicFormatFileURL urlTemplate_expand this [repInfo] responses.
Proof.
  unfold getBasicFormatFileURL, getBasicFormatFileURLWith.
  rewrite last_snoc. reflexivity.
Qed.

(** For a reader the constructor built, [getBasicFormatFileURL] rejects
    with the file-processing error, and asks the info URL nothing, when
    there is no entry at all, when the last entry is in state [error], and
    when its state is none of the five known ones. *)
Theorem getBasicFormatFileURL_rejects_without_polling
    (urlTemplate_expand : string -> string -> string)
    (ev : EventBody) (this : FilesReaderObj) (entries : list RepInfo)
    (responses : list Response) :
  FilesReader ev = Normal this ->
  entries = []
  \/ (exists repInfo, last entries = Some repInfo
        /\ (rep_state repInfo = "error"
            \/ (~ terminal (rep_state repInfo)
                /\ ~ in_progress (rep_state repInfo)))) ->
  let result := getBasicFormatFileURL urlTemplate_expand this entries responses in
  snd result = Rejected (Error "skills_file_processing_error")
  /\ requests (fst result) = 0%nat.
Proof.
  intros Hr Hcase. cbv zeta.
  destruct (FilesReader_establishes ev this Hr) as (_ & _ & (ft & Hft & _) & _).
  unfold getBasicFormatFileURL, getBasicFormatFileURLWith. rewrite Hft.
  destruct Hcase as [-> | (repInfo & -> & [He | [Ht Hp]])].
  - split; reflexivity.
  - rewrite He. split; reflexivity.
  - unfold terminal, in_progress in *.
    destruct (String.eqb_spec (rep_state repInfo) "success"); [tauto|].
    destruct (String.eqb_spec (rep_state repInfo) "viewable"); [tauto|].
    destruct (String.eqb_spec (rep_state repInfo) "error"); [tauto|].
    destruct (String.eqb_spec (rep_state repInfo) "none"); [tauto|].
    destruct (String.eqb_spec (rep_state repInfo) "pending"); [tauto|].
    split; reflexivity.
Qed.

(** No entry, and an entry in a state the code does not know. *)
Lemma getBasicFormatFileURL_rejects_without_polling_witness :
  snd (getBasicFormatFileURL (fun t _ => t) Sample.reader [] [])
  = Rejected (Error "skills_file_processing_error")
  /\ snd (getBasicFormatFileURL (fun t _ => t) Sample.reader
            [Sample.rep "queued" "t0"] [Sample.answer "success" "t1"])
     = Rejected (Error "skills_file_processing_error").
Proof.
  split.
  - apply (getBasicFormatFileURL_rejects_without_polling (fun t _ => t)
             Sample.full_event Sample.reader [] [] eq_refl).
    left. reflexivity.
  - apply (getBasicFormatFileURL_rejects_without_polling (fun t _ => t)
             Sample.full_event Sample.reader [Sample.rep "queued" "t0"]
             [Sample.answer "success" "t1"] eq_refl).
    right. exists (Sample.rep "queued" "t0"). split; [reflexivity|].
    right. split.
    + intros [H | [H | H]]; discriminate H.
    + intros [H | H]; discriminate H.
Defined.

(* ===================================================================== *)
(** ** Reading a stream *)
(* ===================================================================== *)

Section Streams.

Variable Buffer_toString : string -> list Byte.byte -> string.

Lemma listen_data (encoding : string) (cs : list (list Byte.byte))
    (rest : list StreamEvent) (chunks : list (list Byte.byte))
    (state : Settled string) :
  listen Buffer_toString encoding (map OnData cs ++ rest) chunks state
  = listen Buffer_toString encoding rest (chunks ++ cs) state.
Proof.
  revert chunks. induction cs as [|c cs IH]; intros chunks; cbn [map app listen].
  - by rewrite app_nil_r.
  - rewrite IH, <- app_assoc. reflexivity.
Qed.

Lemma listen_settled (encoding : string) (events : list StreamEvent)
    (chunks : list (list Byte.byte)) (state : Settled string) :
  state <> Waiting ->
  listen Buffer_toString encoding events chunks state = state.
Proof.
  intros Hs. revert chunks.
  induction events as [|[c|e|] events IH]; intros chunks; cbn [listen];
    [reflexivity | apply IH | |];
    destruct state; try done; cbn [settle]; apply IH.
Qed.

End Streams.

(** [readStreamToString] throws on what is no stream object.  On a stream
    it resolves, when [end] comes before any [error], to the encoding
    ([base64] unless one is given) of the bytes of all chunks received so
    far, in order; it rejects with the first [error] that comes before
    [end]; whatever the stream emits after that changes nothing; and while
    neither has come it stays pending.  Only the bytes count, not how they
    were cut into chunks. *)
Theorem readStreamToString_outcome
    (Buffer_toString : string -> list Byte.byte -> string)
    (encoding : option string) (chunks chunks' : list (list Byte.byte))
    (err : JSError) (rest : list StreamEvent) :
  readStreamToString Buffer_toString None encoding
  = Throw (TypeError "Invalid Stream, must be a readable stream.")
  /\ readStreamToString Buffer_toString
       (Some (map OnData chunks ++ OnEnd :: rest)%list) encoding
     = Normal (Resolved (Buffer_toString (default "base64" encoding)
                           (concat chunks)))
  /\ readStreamToString Buffer_toString
       (Some (map OnData chunks ++ OnError err :: rest)%list) encoding
     = Normal (Rejected err)
  /\ readStreamToString Buffer_toString (Some (map OnData chunks)) encoding
     = Normal Waiting
  /\ (concat chunks = concat chunks' ->
      readStreamToString Buffer_toString
        (Some (map OnData chunks ++ OnEnd :: rest)%list) encoding
      = readStreamToString Buffer_toString
          (Some (map OnData chunks' ++ OnEnd :: rest)%list) encoding).
Proof.
  assert (Hend : forall cs,
            readStreamToString Buffer_toString
              (Some (map OnData cs ++ OnEnd :: rest)%list) encoding
            = Normal (Resolved (Buffer_toString (default "base64" encoding)
                                  (concat cs)))).
  { intros cs. unfold readStreamToString. rewrite listen_data.
    cbn [listen settle app]. by rewrite listen_settled. }
  split; [reflexivity|]. split; [apply Hend|]. split; [|split].
  - unfold readStreamToString. rewrite listen_data.
    cbn [listen settle]. by rewrite listen_settled.
  - unfold readStreamToString.
    rewrite <- (app_nil_r (map OnData chunks)), listen_data. reflexivity.
  - intros Hc. by rewrite !Hend, Hc.
Qed.

(** The bytes 1, 2, 3 in one chunk or in two. *)
Lemma readStreamToString_outcome_witness :
  readStreamToString (fun _ bytes => string_of_list_byte bytes)
    (Some [OnData [Byte.x01; Byte.x02]; OnData [Byte.x03]; OnEnd]) None
  = readStreamToString (fun _ bytes => string_of_list_byte bytes)
      (Some [OnData [Byte.x01; Byte.x02; Byte.x03]; OnEnd]) None.
Proof.
  apply (proj2 (proj2 (proj2 (proj2
           (readStreamToString_outcome
              (fun _ bytes => string_of_list_byte bytes) None
              [[Byte.x01; Byte.x02]; [Byte.x03]]
              [[Byte.x01; Byte.x02; Byte.x03]] (Error "") []))))).
  reflexivity.
Defined.

(* ===================================================================== *)
(** ** The entry point *)
(* ===================================================================== *)



(** For an event the constructor accepts, the handler answers the callback
    exactly once, with 200, 400 or 401, unless signature validation threw
    and saving the error card failed too, in which case it answers nothing
    and rejects.  The answer is 401 exactly when validation returned false,
    and 200 exactly when validation returned true, the metadata was fetched
    and either the document is no event plan or the update succeeded. *)
Theorem handler_responses (now : string) (world : World) (ev : EventBody)
    (r : FilesReaderObj) :
  FilesReader ev = Normal r ->
  let trace := fst (handler now world ev) in
  let result := snd (handler now world ev) in
  ((result = Normal tt
    /\ exists statusCode, callback_codes trace = [statusCode]
         /\ (statusCode = 200 \/ statusCode = 400 \/ statusCode = 401))
   \/ (exists e e', validateWebhookMessage world = Throw e
         /\ result = Throw e' /\ callback_codes trace = []))
  /\ (callback_codes trace = [401]
      <-> validateWebhookMessage world = Normal false)
  /\ (callback_codes trace = [200]
      <-> validateWebhookMessage world = Normal true
          /\ exists m, getMetadata world = Normal m
               /\ (documentType m <> JStr "Event Plan"
                   \/ setMetadata world = Normal tt)).
Proof.
  intros Hr. cbv zeta. unfold handler. rewrite Hr.
  destruct world as [v g s p]. cbn [validateWebhookMessage getMetadata
    setMetadata put].
  destruct v as [[|]|e].
  - destruct g as [m|eg].
    + pose proof (strict_eq_JStr (documentType m) "Event Plan") as Hse.
      destruct (strict_eq (documentType m) (JStr "Event Plan")).
      * destruct s as [[]|es]; cbn.
        -- split; [left; split; [done | exists 200; tauto]|].
           split; [split; discriminate|].
           split; [intros _; split; [done | exists m; tauto] | done].
        -- split; [left; split; [done | exists 400; tauto]|].
           split; [split; discriminate|].
           split; [discriminate|].
           intros (_ & m' & [= <-] & [H | H]); [|discriminate].
           exfalso. apply H, Hse. reflexivity.
      * cbn. split; [left; split; [done | exists 200; tauto]|].
        split; [split; discriminate|].
        split; [intros _; split; [done|] | done].
        exists m. split; [done|]. left. intros H. apply Hse in H. discriminate.
    + cbn. split; [left; split; [done | exists 400; tauto]|].
      split; [split; discriminate|].
      split; [discriminate | intros (_ & m & [=] & _)].
  - cbn. split; [left; split; [done | exists 401; tauto]|].
    split; [done|]. split; [discriminate | intros ([=] & _)].
  - destruct (p _) as [[]|ep] eqn:Hp; cbn.
    + split; [left; split; [done | exists 400; tauto]|].
      split; [split; discriminate|].
      split; [discriminate | intros ([=] & _)].
    + split; [right; by exists e, ep|].
      split; [split; discriminate|].
      split; [discriminate | intros ([=] & _)].
Qed.

(** A valid signature and a document that is no event plan. *)
Lemma handler_responses_witness :
  callback_codes
    (fst (handler Sample.now
            {| validateWebhookMessage := Normal true;
               getMetadata := Normal {| documentType := JStr "Invoice" |};
               setMetadata := Normal tt;
               put := fun _ => Normal tt |}
            Sample.full_event))
  = [200].
Proof.
  apply (proj2 (proj2 (handler_responses Sample.now _ Sample.full_event
                         Sample.reader eq_refl))).
  split; [reflexivity|]. eexists. split; [reflexivity|].
  left. discriminate.
Defined.

(** For an event the constructor accepts, the handler updates metadata
    exactly when the signature is valid and the fetched document type is
    ["Event Plan"], and then once: [participantCount] 500 in the
    [eventDetails] template of the event's file, with the write token's
    client.  It saves an error card exactly when signature validation
    threw, never because the metadata calls failed; that card is the one
    card of a [permanent_failure] update, with code ["custom_error"]. *)
Theorem handler_writes (now : string) (world : World) (ev : EventBody)
    (r : FilesReaderObj) :
  FilesReader ev = Normal r ->
  let trace := fst (handler now world ev) in
  (set_calls trace
   = (if match validateWebhookMessage world, getMetadata world with
         | Normal true, Normal m =>
             strict_eq (documentType m) (JStr "Event Plan")
         | _, _ => false
         end
      then [CallSetMetadata (getBasicClient (the_write_token ev))
              (the_source_id ev) "enterprise" "eventDetails" 500]
      else []))
  /\ ((exists e, validateWebhookMessage world = Throw e)
      -> exists request card,
           put_calls trace = [request]
           /\ submitted_by (SkillsWriter r) request
           /\ body_status (put_body request) = JStr "permanent_failure"
           /\ body_metadata_cards (put_body request) = [card]
           /\ code (status card) = JStr "custom_error")
  /\ ((forall e, validateWebhookMessage world <> Throw e)
      -> put_calls trace = []).
Proof.
  intros Hr. cbv zeta.
  destruct (FilesReader_copies ev r Hr) as (_ & _ & Hid & _ & Hw).
  unfold handler. rewrite Hr.
  destruct world as [v g s p]. cbn [validateWebhookMessage getMetadata
    setMetadata put].
  destruct v as [[|]|e].
  - destruct g as [m|eg].
    + destruct (strict_eq (documentType m) (JStr "Event Plan")).
      * destruct s as [[]|es]; cbn; rewrite Hw, Hid;
          (split; [reflexivity|]); (split; [intros [e [=]] | done]).
      * cbn. split; [reflexivity|]. split; [intros [e [=]] | done].
    + cbn. split; [reflexivity|]. split; [intros [e [=]] | done].
  - cbn. split; [reflexivity|]. split; [intros [e [=]] | done].
  - assert (Hsub : submitted_by (SkillsWriter r)
                     (saveErrorCard (SkillsWriter r) now
                        (JStr SkillsErrorEnum.UNKNOWN)
                        (Some "Something went wrong. It will retry again in a few minutes.")
                        JUndefined)).
    { right. left. by eexists _, _, _, _. }
    destruct (p _) as [[]|ep] eqn:Hp; cbn;
      (split; [reflexivity|]);
      (split; [intros _ | intros H; by destruct (H e)]);
      eexists _, _; (split; [reflexivity|]); (split; [exact Hsub|]);
      repeat split.
Qed.

(** A valid signature and an event plan: one update of the file. *)
Lemma handler_writes_witness :
  put_calls
    (fst (handler Sample.now
            {| validateWebhookMessage := Normal true;
               getMetadata := Normal {| documentType := JStr "Event Plan" |};
               setMetadata := Throw (Error "conflict");
               put := fun _ => Normal tt |}
            Sample.full_event))
  = [].
Proof.
  apply (proj2 (proj2 (handler_writes Sample.now _ Sample.full_event
                         Sample.reader eq_refl))).
  intros e. discriminate.
Defined.
